(** * AllSports backend: the authentication gate and the route handlers

    A shallow embedding of [routes/User.route.js], [routes/Category.route.js]
    and [routes/Product.route.js].  Every handler is an [async] function that
    awaits ORM and library calls, may throw, and finally sends one response;
    it is embedded as a computation in a state-and-exception monad over the
    contents of the database. *)

From Stdlib Require Import ZArith List String Ascii Bool Lia.
Import ListNotations.

Local Open Scope string_scope.
Local Open Scope Z_scope.

(** ** JavaScript values *)

(** The values that reach the handlers: what [express.json()] parses from a
    request body, what the ORM hands back, and [undefined]. Numbers are the
    integers (the handlers do no arithmetic on them). *)
#[warnings="-register-all"]
Inductive JsVal : Type :=
| JUndefined
| JNull
| JBool (b : bool)
| JNum (n : Z)
| JStr (s : string)
| JArr (items : list JsVal)
| JObj (fields : list (string * JsVal)).

(** [if (v)] *)
Definition truthy (v : JsVal) : bool :=
  match v with
  | JUndefined | JNull => false
  | JBool b => b
  | JNum n => negb (n =? 0)
  | JStr s => negb (s =? "")%string
  | JArr _ | JObj _ => true
  end.

Fixpoint assoc (k : string) (fields : list (string * JsVal)) : JsVal :=
  match fields with
  | [] => JUndefined
  | (k', v) :: rest => if (k =? k')%string then v else assoc k rest
  end.

Definition digit_of (c : ascii) : option Z :=
  let n := Z.of_nat (nat_of_ascii c) in
  if (48 <=? n) && (n <=? 57) then Some (n - 48) else None.

(** The leading decimal digits of [s], accumulated onto [acc], and the rest
    of the string. *)
Fixpoint digits (acc : Z) (s : string) : Z * string :=
  match s with
  | EmptyString => (acc, s)
  | String c rest =>
      match digit_of c with
      | Some d => digits (10 * acc + d) rest
      | None => (acc, s)
      end
  end.

Definition starts_with_digit (s : string) : bool :=
  match s with
  | String c _ => match digit_of c with Some _ => true | None => false end
  | EmptyString => false
  end.

(** An array index written as a property key. *)
Definition index_of_key (k : string) : option nat :=
  if starts_with_digit k then
    match digits 0 k with
    | (n, EmptyString) => Some (Z.to_nat n)
    | _ => None
    end
  else None.

(** [v[k]], which is also what the destructuring [const {k} = v] binds.
    An object yields its own property; an array has its indices and
    [length]; any other name is [undefined]. *)
Definition get_prop (v : JsVal) (k : string) : JsVal :=
  match v with
  | JObj fields => assoc k fields
  | JArr items =>
      if (k =? "length")%string then JNum (Z.of_nat (List.length items))
      else match index_of_key k with
           | Some i => nth i items JUndefined
           | None => JUndefined
           end
  | _ => JUndefined
  end.

(** ** Exceptions *)

(** A thrown [Error] object. [err_name], [err_message] and [err_stack] are
    the standard fields, which [JSON.stringify] skips; [err_props] are the own
    enumerable properties, which it emits (a Sequelize error carries its
    name, the failed SQL and the driver's error there). *)
Record JsError : Type := mkError {
  err_name : string;
  err_message : string;
  err_stack : string;
  err_props : list (string * JsVal)
}.

Definition Error (message : string) : JsError :=
  mkError "Error" message "" [].

(** What [res.json] writes for an error object. *)
Definition err_json (e : JsError) : JsVal := JObj (err_props e).

Inductive Result (A : Type) : Type :=
| Ok (a : A)
| Err (e : JsError).
Arguments Ok {A} a.
Arguments Err {A} e.

(** ** Records of the three models *)

(** Modelled from the spec: [models/User.model.js] is not part of the
    sources; a user row is {id, name, email, password-hash, role}. The
    columns hold what the handler passed to [User.create]. *)
Record User : Type := mkUser {
  user_id : Z;
  user_name : JsVal;
  user_email : JsVal;
  user_password : string;
  user_role : JsVal
}.

Record Category : Type := mkCategory {
  category_id : Z;
  category_name : JsVal
}.

Record Product : Type := mkProduct {
  product_id : Z;
  product_name : JsVal;
  product_description : JsVal;
  product_price : JsVal;
  product_categoryId : JsVal
}.

(** ** The world a request runs in *)

(** The ORM entry points the handlers call. *)
Inductive OrmOp : Type :=
| User_findOne_op
| User_create_op
| Category_findAll_op
| Category_destroy_op
| Product_update_op
| Product_findOne_op.

Definition OrmOp_eqb (a b : OrmOp) : bool :=
  match a, b with
  | User_findOne_op, User_findOne_op
  | User_create_op, User_create_op
  | Category_findAll_op, Category_findAll_op
  | Category_destroy_op, Category_destroy_op
  | Product_update_op, Product_update_op
  | Product_findOne_op, Product_findOne_op => true
  | _, _ => false
  end.

(** The database tables, the ORM calls made so far (newest first) and what
    [console.log] has printed (newest first). *)
Record World : Type := mkWorld {
  users : list User;
  categories : list Category;
  products : list Product;
  orm_calls : list OrmOp;
  console : list (option User)
}.

(** What is fixed from outside for the duration of one request:
    [process.env.SECRET_KEY], [Date.now()] in milliseconds, the random salt
    bcrypt draws, and for each ORM entry point whether the database rejects
    the call (connection loss, constraint or validation failure) and with
    which error. *)
Record Env : Type := mkEnv {
  SECRET_KEY : option string;
  now : Z;
  salt : string;
  fault : OrmOp -> option JsError
}.

Definition no_fault : OrmOp -> option JsError := fun _ => None.

(** ** The monad of an [async] function body *)

Definition M (A : Type) : Type := World -> Result A * World.

Definition ret {A} (a : A) : M A := fun w => (Ok a, w).

Definition throw {A} (e : JsError) : M A := fun w => (Err e, w).

Definition bind {A B} (m : M A) (k : A -> M B) : M B :=
  fun w =>
    match m w with
    | (Ok a, w') => k a w'
    | (Err e, w') => (Err e, w')
    end.

(** [try { m } catch (err) { h err }] *)
Definition try_catch {A} (m : M A) (h : JsError -> M A) : M A :=
  fun w =>
    match m w with
    | (Ok a, w') => (Ok a, w')
    | (Err e, w') => h e w'
    end.

Definition lift {A} (r : Result A) : M A := fun w => (r, w).

Declare Scope js_scope.
Delimit Scope js_scope with js.
Notation "x <- m ;; k" := (bind m (fun x => k))
  (at level 61, m at next level, right associativity) : js_scope.
Notation "m ;; k" := (bind m (fun _ => k))
  (at level 61, right associativity) : js_scope.
Local Open Scope js_scope.

(** ** The bcrypt package *)

(** [bcrypt.hash(data, rounds)] with the salt it draws, and
    [bcrypt.compare(data, encrypted)]. Both return promises that may reject;
    the package is a collaborator of the handlers and is taken as an
    interface. *)
Class Bcrypt : Type := {
  bcrypt_hash : JsVal -> Z -> string -> Result string;
  bcrypt_compare : JsVal -> JsVal -> Result bool
}.

(** The contract of the package that the flows rely on. *)
Definition bcrypt_sound (bc : Bcrypt) : Prop :=
  forall data rounds salt hashed,
    bcrypt_hash data rounds salt = Ok hashed ->
    bcrypt_compare data (JStr hashed) = Ok true.

Definition bcrypt_one_way (bc : Bcrypt) : Prop :=
  forall data rounds salt hashed,
    bcrypt_hash data rounds salt = Ok hashed -> data <> JStr hashed.

(** ** The jsonwebtoken package *)

(** The claim set [jwt.sign] serialises: the payload the caller gave, and
    [iat] and [exp] in seconds. *)
Record Claims : Type := mkClaims {
  claim_id : Z;
  claim_role : JsVal;
  claim_iat : Z;
  claim_exp : Z
}.

(** A signed token, symbolically: its claim set and the key its HS256
    signature was computed with. *)
Record Jwt : Type := mkJwt {
  jwt_claims : Claims;
  jwt_key : string
}.

(** The units of the [ms] package, in milliseconds. *)
Definition ms_units : list (string * Z) :=
  [ ("", 1); ("ms", 1); ("s", 1000); ("m", 60000); ("h", 3600000);
    ("d", 86400000); ("w", 604800000); ("y", 31557600000) ].

Fixpoint unit_ms (u : string) (table : list (string * Z)) : option Z :=
  match table with
  | [] => None
  | (name, factor) :: rest =>
      if (u =? name)%string then Some factor else unit_ms u rest
  end.

(** [ms(str)] on a whole number followed by a short unit, which is the
    form the program uses; [None] is [undefined]. *)
Definition ms (str : string) : option Z :=
  if starts_with_digit str then
    let (n, u) := digits 0 str in
    match unit_ms u ms_units with
    | Some factor => Some (n * factor)
    | None => None
    end
  else None.

(** jsonwebtoken's [timespan(time, iat)] for a string [time]:
    [Math.floor(iat + ms(time) / 1000)]. *)
Definition timespan (time : string) (iat : Z) : option Z :=
  match ms time with
  | Some milliseconds => Some (iat + milliseconds / 1000)
  | None => None
  end.

(** [jwt.sign({id, role}, secretOrPrivateKey, {expiresIn})] at clock
    [clock] (milliseconds). *)
Definition jwt_sign (id : Z) (role : JsVal) (secretOrPrivateKey : option string)
    (expiresIn : string) (clock : Z) : Result Jwt :=
  match secretOrPrivateKey with
  | None => Err (Error "secretOrPrivateKey must have a value")
  | Some key =>
      if (key =? "")%string
      then Err (Error "secretOrPrivateKey must have a value")
      else
        let iat := clock / 1000 in
        match timespan expiresIn iat with
        | Some exp => Ok (mkJwt (mkClaims id role iat exp) key)
        | None =>
            Err (Error "expiresIn should be a number of seconds or string representing a timespan")
        end
  end.

(** ** Requests and responses *)

(** The [Authorization] header: a bearer token, or anything else. *)
Inductive Authorization : Type :=
| Bearer (token : Jwt)
| Unparsable (raw : string).

(** The failures of the gate, after the spec's taxonomy. *)
Inductive AuthError : Type :=
| AuthInvalid
| AuthForbidden.

(** The identity the Token Verifier attaches to the request. *)
Record Identity : Type := mkIdentity {
  subjectId : Z;
  identity_role : JsVal
}.

(** What the handlers read of a request: the Authorization header,
    [req.user], [req.params.id] and [req.body], which [express.json()] has
    parsed to an object. *)
Record Request : Type := mkRequest {
  authorization : option Authorization;
  req_user : option Identity;
  params_id : string;
  req_body : JsVal
}.

(** The JSON bodies the handlers and the gate send. *)
Inductive Body : Type :=
| BodyMessage (message : string)
| BodyUser (user : User)
| BodyLogin (user : User) (token : Jwt)
| BodyErr (err : JsVal)
| BodyError (error : string)
| BodyCategories (categories : list Category)
| BodyProduct (product : option (Product * option Category))
| BodyAuth (why : AuthError).

Record Response : Type := mkResponse {
  status : Z;
  body : Body
}.

(** ** The ORM *)

Definition record_call (op : OrmOp) (w : World) : World :=
  mkWorld (users w) (categories w) (products w) (op :: orm_calls w) (console w).

Definition set_users (us : list User) (w : World) : World :=
  mkWorld us (categories w) (products w) (orm_calls w) (console w).

Definition set_categories (cs : list Category) (w : World) : World :=
  mkWorld (users w) cs (products w) (orm_calls w) (console w).

Definition set_products (ps : list Product) (w : World) : World :=
  mkWorld (users w) (categories w) ps (orm_calls w) (console w).

Definition console_log (u : option User) : M unit :=
  fun w =>
    (Ok tt, mkWorld (users w) (categories w) (products w) (orm_calls w)
                    (u :: console w)).

(** One awaited ORM call: it is recorded, and either the database rejects it
    or the query runs. *)
Definition orm_call {A} (env : Env) (op : OrmOp) (query : World -> A * World)
    : M A :=
  fun w =>
    let w1 := record_call op w in
    match fault env op with
    | Some e => (Err e, w1)
    | None => let (a, w2) := query w1 in (Ok a, w2)
    end.

(** [WHERE column = key] on scalar values (exact match). *)
Definition sql_eq (stored key : JsVal) : bool :=
  match stored, key with
  | JStr a, JStr b => (a =? b)%string
  | JNum a, JNum b => a =? b
  | JBool a, JBool b => Bool.eqb a b
  | JNull, JNull => true
  | _, _ => false
  end.

(** [WHERE id = key] for the key taken from the path, a string. *)
Definition sql_id_eq (row_id : Z) (key : string) : bool :=
  match index_of_key key with
  | Some n => row_id =? Z.of_nat n
  | None => false
  end.

(** The next auto-increment id of a table. *)
Definition fresh_id (ids : list Z) : Z := 1 + fold_right Z.max 0 ids.

(** Modelled from the spec: the Credential Store "exposes lookup-by-email
    and create"; [models/User.model.js] is not part of the sources. *)
Definition User_findOne (env : Env) (email : JsVal) : M (option User) :=
  orm_call env User_findOne_op
    (fun w => (find (fun u => sql_eq (user_email u) email) (users w), w)).

(** Modelled from the spec: [User.create] of the absent
    [models/User.model.js]; the new row gets the next id and the submitted
    columns, is appended to the table and is handed back. *)
Definition User_create (env : Env) (name email : JsVal) (password : string)
    (role : JsVal) : M User :=
  orm_call env User_create_op
    (fun w =>
       let user := mkUser (fresh_id (map user_id (users w)))
                          name email password role in
       (user, set_users (users w ++ [user]) w)).

(** ** routes/User.route.js *)

Section UserRoute.
Context {bc : Bcrypt}.

(** [userRoute.post('/register', ...)] *)
Definition register (env : Env) (req : Request) : M Response :=
  let name := get_prop (req_body req) "name" in
  let email := get_prop (req_body req) "email" in
  let password := get_prop (req_body req) "password" in
  let role := get_prop (req_body req) "role" in
  existingUser <- User_findOne env email ;;
  match existingUser with
  | Some _ => ret (mkResponse 400 (BodyMessage "User already exists"))
  | None =>
      hashPassword <- lift (bcrypt_hash password 10 (salt env)) ;;
      try_catch
        (user <- User_create env name email hashPassword role ;;
         ret (mkResponse 201 (BodyUser user)))
        (fun err => ret (mkResponse 500 (BodyErr (err_json err))))
  end.

(** [userRoute.post('/login', ...)] *)
Definition login (env : Env) (req : Request) : M Response :=
  let email := get_prop (req_body req) "email" in
  let password := get_prop (req_body req) "password" in
  try_catch
    (user <- User_findOne env email ;;
     console_log user ;;
     match user with
     | Some user =>
         isPasswordValid <-
           lift (bcrypt_compare password (JStr (user_password user))) ;;
         if isPasswordValid : bool then
           token <- lift (jwt_sign (user_id user) (user_role user)
                                   (SECRET_KEY env) "1h" (now env)) ;;
           ret (mkResponse 200 (BodyLogin user token))
         else ret (mkResponse 401 (BodyMessage "Invalid credentials"))
     | None => ret (mkResponse 401 (BodyMessage "Invalid credentials"))
     end)
    (fun err => ret (mkResponse 500 (BodyErr (err_json err)))).

End UserRoute.

(** ** Express routes *)

(** What a middleware does with a request: pass it on, possibly annotated,
    or answer it. *)
Inductive Step : Type :=
| Next (req : Request)
| Send (res : Response).

Definition Middleware : Type := Env -> Request -> M Step.
Definition Handler : Type := Env -> Request -> M Response.

(** [router.METHOD(path, mw1, ..., mwn, handler)]: the middlewares run in
    order; the first that answers ends the request. *)
Fixpoint route (mws : list Middleware) (handler : Handler) : Handler :=
  fun env req =>
    match mws with
    | [] => handler env req
    | mw :: rest =>
        step <- mw env req ;;
        match step with
        | Next req' => route rest handler env req'
        | Send res => ret res
        end
    end.

(** ** The gate: middelware/auth.js and middelware/authorization.js *)

(** jsonwebtoken's [jwt.verify(token, secret)] at clock [clock]
    (milliseconds): the signature is checked against the secret, then the
    expiry against the clock in whole seconds. *)
Definition jwt_verify (token : Jwt) (secret : option string) (clock : Z)
    : Result Claims :=
  match secret with
  | None => Err (Error "secret or public key must be provided")
  | Some key =>
      if negb (jwt_key token =? key)%string
      then Err (mkError "JsonWebTokenError" "invalid signature" "" [])
      else if claim_exp (jwt_claims token) <=? clock / 1000
      then Err (mkError "TokenExpiredError" "jwt expired" "" [])
      else Ok (jwt_claims token)
  end.

(** Modelled from the spec: the Token Verifier of [middelware/auth.js],
    which is not part of the sources. "decode and check signature against
    the process secret; check expiry against current time; on success produce
    Identity{subjectId, role}; on any failure (missing token, malformed token,
    bad signature, expired) produce a uniform AuthError". *)
Definition Token_Verifier (env : Env) (raw : option Authorization)
    : Identity + AuthError :=
  match raw with
  | Some (Bearer token) =>
      match jwt_verify token (SECRET_KEY env) (now env) with
      | Ok claims => inl (mkIdentity (claim_id claims) (claim_role claims))
      | Err _ => inr AuthInvalid
      end
  | Some (Unparsable _) => inr AuthInvalid
  | None => inr AuthInvalid
  end.

(** Modelled from the spec: the middleware around the Token Verifier.
    "short-circuits the request ... before the handler runs if verification
    fails ... missing/invalid/expired token -> unauthorized (401-equivalent)";
    "on success, attaches Identity to the request context". *)
Definition authenticateToken : Middleware :=
  fun env req =>
    match Token_Verifier env (authorization req) with
    | inl identity =>
        ret (Next (mkRequest (authorization req) (Some identity)
                             (params_id req) (req_body req)))
    | inr why => ret (Send (mkResponse 401 (BodyAuth why)))
    end.

(** [allowedRoles.includes(role)] *)
Definition includes (allowedRoles : list string) (role : JsVal) : bool :=
  match role with
  | JStr r => existsb (String.eqb r) allowedRoles
  | _ => false
  end.

(** Modelled from the spec: the Role Authorizer of
    [middelware/authorization.js], which is not part of the sources.
    "Pure predicate: permit if identity.role in allowedRoles, else deny with
    a forbidden-equivalent error". *)
Definition Role_Authorizer (identity : Identity) (allowedRoles : list string)
    : unit + AuthError :=
  if includes allowedRoles (identity_role identity)
  then inl tt
  else inr AuthForbidden.

(** Modelled from the spec: the middleware around the Role Authorizer.
    "Must run only after Token Verifier has populated Identity; if Identity
    is absent, this is a programming error". *)
Definition authorizeRoles (allowedRoles : list string) : Middleware :=
  fun env req =>
    match req_user req with
    | Some identity =>
        match Role_Authorizer identity allowedRoles with
        | inl _ => ret (Next req)
        | inr why => ret (Send (mkResponse 403 (BodyAuth why)))
        end
    | None => throw (mkError "TypeError" "identity is absent" "" [])
    end.

(** ** routes/Category.route.js *)

Definition Category_findAll (env : Env) : M (list Category) :=
  orm_call env Category_findAll_op (fun w => (categories w, w)).

(** [Category.destroy({where: {id}})] resolves to the number of rows
    deleted. *)
Definition Category_destroy (env : Env) (id : string) : M Z :=
  orm_call env Category_destroy_op
    (fun w =>
       let kept :=
         filter (fun c => negb (sql_id_eq (category_id c) id)) (categories w) in
       (Z.of_nat (List.length (categories w)) - Z.of_nat (List.length kept),
        set_categories kept w)).

(** The handler of [categoryRoute.get("/", ...)]. *)
Definition categories_get_handler : Handler :=
  fun env req =>
    try_catch
      (categories <- Category_findAll env ;;
       if negb (truthy (JNum (Z.of_nat (List.length categories))))
       then ret (mkResponse 404 (BodyMessage "No categories found"))
       else ret (mkResponse 200 (BodyCategories categories)))
      (fun err => ret (mkResponse 500 (BodyError (err_message err)))).

Definition categoryRoute_get : Handler :=
  route [authenticateToken; authorizeRoles ["admin"]] categories_get_handler.

(** The handler of [categoryRoute.delete("/:id", ...)]. *)
Definition categories_delete_handler : Handler :=
  fun env req =>
    let id := params_id req in
    try_catch
      (rowsDeleted <- Category_destroy env id ;;
       if negb (truthy (JNum rowsDeleted))
       then ret (mkResponse 404 (BodyMessage "Category not found"))
       else ret (mkResponse 200 (BodyMessage "Category deleted successfully")))
      (fun err => ret (mkResponse 500 (BodyError (err_message err)))).

Definition categoryRoute_delete : Handler :=
  route [authenticateToken; authorizeRoles ["admin"]] categories_delete_handler.

(** ** routes/Product.route.js *)

(** A column keeps its value when the update leaves it [undefined]. *)
Definition assign (old new : JsVal) : JsVal :=
  match new with
  | JUndefined => old
  | _ => new
  end.

(** [Product.update(values, {where: {id}})] resolves to the array
    [[affectedCount]]. *)
Definition Product_update (env : Env)
    (name description price categoryId : JsVal) (id : string) : M JsVal :=
  orm_call env Product_update_op
    (fun w =>
       let hit p := sql_id_eq (product_id p) id in
       let updated_row p :=
         if hit p
         then mkProduct (product_id p)
                        (assign (product_name p) name)
                        (assign (product_description p) description)
                        (assign (product_price p) price)
                        (assign (product_categoryId p) categoryId)
         else p in
       let affectedCount := Z.of_nat (List.length (filter hit (products w))) in
       (JArr [JNum affectedCount], set_products (map updated_row (products w)) w)).

(** [Product.findOne({where: {id}, include: {model: Category, as: "Category"}})] *)
Definition Product_findOne (env : Env) (id : string)
    : M (option (Product * option Category)) :=
  orm_call env Product_findOne_op
    (fun w =>
       match find (fun p => sql_id_eq (product_id p) id) (products w) with
       | Some p =>
           (Some (p, find (fun c => sql_eq (JNum (category_id c))
                                           (product_categoryId p))
                          (categories w)), w)
       | None => (None, w)
       end).

(** The handler of [productRoute.patch('/:id', ...)]. *)
Definition products_patch_handler : Handler :=
  fun env req =>
    let id := params_id req in
    let name := get_prop (req_body req) "name" in
    let description := get_prop (req_body req) "description" in
    let price := get_prop (req_body req) "price" in
    let categoryId := get_prop (req_body req) "categoryId" in
    try_catch
      (result <- Product_update env name description price categoryId id ;;
       let updated := get_prop result "updated" in
       if truthy updated
       then
         updateProd <- Product_findOne env id ;;
         ret (mkResponse 200 (BodyProduct updateProd))
       else ret (mkResponse 200 (BodyMessage "Product updated successfully")))
      (fun err => ret (mkResponse 500 (BodyErr (err_json err)))).

Definition productRoute_patch : Handler :=
  route [authenticateToken; authorizeRoles ["admin"]] products_patch_handler.

(** ** app.js: the mounted endpoints *)

Inductive Endpoint : Type :=
| POST_user_register
| POST_user_login
| GET_categories
| DELETE_categories_id
| PATCH_products_id.

Definition dispatch {bc : Bcrypt} (ep : Endpoint) : Handler :=
  match ep with
  | POST_user_register => register
  | POST_user_login => login
  | GET_categories => categoryRoute_get
  | DELETE_categories_id => categoryRoute_delete
  | PATCH_products_id => productRoute_patch
  end.

(** The world after the server has served a sequence of requests, whatever
    each of them was answered. *)
Fixpoint serve {bc : Bcrypt} (calls : list (Endpoint * Env * Request))
    (w : World) : World :=
  match calls with
  | [] => w
  | (ep, env, req) :: rest => serve rest (snd (dispatch ep env req w))
  end.

(** No endpoint removes or rewrites a user row: each computation only
    appends to the users table. *)
Definition grows {A} (m : M A) : Prop :=
  forall w, exists extra, users (snd (m w)) = (users w ++ extra)%list.

(** ** An executable stand-in for bcrypt *)

Fixpoint is_suffix (s h : string) : bool :=
  (h =? s)%string ||
  match h with
  | String _ h' => is_suffix s h'
  | EmptyString => false
  end.

(** The argument checks are those of the package's JavaScript wrapper; the
    Blowfish transform is replaced by a tagged copy of salt and input, which
    keeps the package's functional contract. *)
Definition reference_hash (data : JsVal) (rounds : Z) (salt : string)
    : Result string :=
  match data with
  | JUndefined | JNull => Err (Error "data and salt arguments required")
  | JStr plain => Ok ("$2b$" ++ salt ++ "$" ++ plain)
  | _ => Err (Error "data must be a string or Buffer and salt must either be a salt string or a number of rounds")
  end.

Definition reference_compare (data encrypted : JsVal) : Result bool :=
  match data, encrypted with
  | (JUndefined | JNull), _ | _, (JUndefined | JNull) =>
      Err (Error "data and hash arguments required")
  | JStr plain, JStr hashed =>
      Ok (prefix "$2b$" hashed && is_suffix ("$" ++ plain) hashed)
  | _, _ => Err (Error "data and hash must be strings")
  end.

Definition reference_bcrypt : Bcrypt :=
  {| bcrypt_hash := reference_hash; bcrypt_compare := reference_compare |}.

(** ** Sample data *)

Definition empty_world : World := mkWorld [] [] [] [] [].

Definition env0 : Env := mkEnv (Some "s3cret") 1700000000123 "N9qo8uLOickgx2ZMRZoMye" no_fault.

Definition at_time (env : Env) (t : Z) : Env :=
  mkEnv (SECRET_KEY env) t (salt env) (fault env).

Definition failing (op : OrmOp) (e : JsError) : OrmOp -> option JsError :=
  fun op' => if OrmOp_eqb op op' then Some e else None.

Definition post (fields : list (string * JsVal)) : Request :=
  mkRequest None None "" (JObj fields).

Definition alice_registration : Request :=
  post [("name", JStr "A"); ("email", JStr "a@x.com");
        ("password", JStr "pw"); ("role", JStr "user")].

Definition alice_login : Request :=
  post [("email", JStr "a@x.com"); ("password", JStr "pw")].

Definition alice : User :=
  mkUser 1 (JStr "A") (JStr "a@x.com") "$2b$N9qo8uLOickgx2ZMRZoMye$pw" (JStr "user").

Definition world_with_alice : World :=
  mkWorld [alice] [] [] [User_create_op; User_findOne_op] [].

(** The error Sequelize raises when the database server refuses the
    connection, with the own enumerable properties it carries. *)
Definition driver_refusal : JsVal :=
  JObj [("errno", JNum (-111)); ("code", JStr "ECONNREFUSED");
        ("syscall", JStr "connect"); ("address", JStr "127.0.0.1");
        ("port", JNum 3306); ("fatal", JBool true)].

Definition connection_refused : JsError :=
  mkError "SequelizeConnectionRefusedError"
          "connect ECONNREFUSED 127.0.0.1:3306"
          "SequelizeConnectionRefusedError: connect ECONNREFUSED 127.0.0.1:3306 at ConnectionManager.connect"
          [("name", JStr "SequelizeConnectionRefusedError");
           ("parent", driver_refusal); ("original", driver_refusal)].

Definition env_refused : Env :=
  mkEnv (Some "s3cret") 1700000000123 "N9qo8uLOickgx2ZMRZoMye"
        (failing User_findOne_op connection_refused).

Definition admin_token : Jwt :=
  mkJwt (mkClaims 7 (JStr "admin") 1700000000 1700003600) "s3cret".

Definition user_token : Jwt :=
  mkJwt (mkClaims 1 (JStr "user") 1700000000 1700003600) "s3cret".

Definition with_token (token : Jwt) (id : string) (fields : list (string * JsVal))
    : Request :=
  mkRequest (Some (Bearer token)) None id (JObj fields).

Definition shop : World :=
  mkWorld [alice]
          [mkCategory 1 (JStr "Cricket"); mkCategory 2 (JStr "Football")]
          [mkProduct 1 (JStr "Bat") (JStr "Willow") (JNum 40) (JNum 1)]
          [] [].

(** ** The other routes of routes/Category.route.js and routes/Product.route.js *)

(** Rows carry the columns the models declare; the createdAt and updatedAt
    columns that Sequelize adds on its own are not represented. *)

(** The ORM entry points of these routes. *)
Inductive StoreOp : Type :=
| Category_findOne_op
| Category_create_op
| Category_update_op
| Product_findAll_op
| Product_create_op
| Product_destroy_op.

Definition StoreOp_eqb (a b : StoreOp) : bool :=
  match a, b with
  | Category_findOne_op, Category_findOne_op
  | Category_create_op, Category_create_op
  | Category_update_op, Category_update_op
  | Product_findAll_op, Product_findAll_op
  | Product_create_op, Product_create_op
  | Product_destroy_op, Product_destroy_op => true
  | _, _ => false
  end.

(** For each of these entry points, whether the database rejects the call
    during the request, and with which error. *)
Definition Rejects : Type := StoreOp -> option JsError.

Definition accepts_all : Rejects := fun _ => None.

Definition rejecting (op : StoreOp) (e : JsError) : Rejects :=
  fun op' => if StoreOp_eqb op op' then Some e else None.

(** One awaited call of such an entry point: the database rejects it, or
    the query runs. *)
Definition store_call {A} (rejects : Rejects) (op : StoreOp)
    (query : World -> A * World) : M A :=
  fun w =>
    match rejects op with
    | Some e => (Err e, w)
    | None => let (a, w') := query w in (Ok a, w')
    end.

(** [Category.findOne({where: {id}})] *)
Definition Category_findOne (rejects : Rejects) (id : string)
    : M (option Category) :=
  store_call rejects Category_findOne_op
    (fun w => (find (fun c => sql_id_eq (category_id c) id) (categories w), w)).

(** [Category.create({name})] *)
Definition Category_create (rejects : Rejects) (name : JsVal) : M Category :=
  store_call rejects Category_create_op
    (fun w =>
       let category :=
         mkCategory (fresh_id (map category_id (categories w))) name in
       (category, set_categories (categories w ++ [category]) w)).

(** [Category.update({name, description, price, categoryId}, {where: {id}})]:
    of the values only [name] is an attribute of the model
    (models/Category.model.js), the others are dropped. *)
Definition Category_update (rejects : Rejects)
    (name description price categoryId : JsVal) (id : string) : M JsVal :=
  store_call rejects Category_update_op
    (fun w =>
       let hit c := sql_id_eq (category_id c) id in
       let updated_row c :=
         if hit c
         then mkCategory (category_id c) (assign (category_name c) name)
         else c in
       let affectedCount :=
         Z.of_nat (List.length (filter hit (categories w))) in
       (JArr [JNum affectedCount],
        set_categories (map updated_row (categories w)) w)).

(** The row with the category its [categoryId] names, as
    [include: {model: Category, as: "Category"}] loads it. *)
Definition with_Category (w : World) (p : Product) : Product * option Category :=
  (p, find (fun c => sql_eq (JNum (category_id c)) (product_categoryId p))
           (categories w)).

(** [Product.findAll({include: {model: Category, as: "Category"}})] *)
Definition Product_findAll (rejects : Rejects)
    : M (list (Product * option Category)) :=
  store_call rejects Product_findAll_op
    (fun w => (map (with_Category w) (products w), w)).

(** [Product.create({name, description, price, categoryId})] *)
Definition Product_create (rejects : Rejects)
    (name description price categoryId : JsVal) : M Product :=
  store_call rejects Product_create_op
    (fun w =>
       let product :=
         mkProduct (fresh_id (map product_id (products w)))
                   name description price categoryId in
       (product, set_products (products w ++ [product]) w)).

(** [Product.destroy({where: {id}})] resolves to the number of rows
    deleted. *)
Definition Product_destroy (rejects : Rejects) (id : string) : M Z :=
  store_call rejects Product_destroy_op
    (fun w =>
       let kept :=
         filter (fun p => negb (sql_id_eq (product_id p) id)) (products w) in
       (Z.of_nat (List.length (products w)) - Z.of_nat (List.length kept),
        set_products kept w)).

(** The handler of [categoryRoute.patch("/:id", ...)]. *)
Definition categories_patch_handler (rejects : Rejects) : Handler :=
  fun env req =>
    let id := params_id req in
    let name := get_prop (req_body req) "name" in
    let description := get_prop (req_body req) "description" in
    let price := get_prop (req_body req) "price" in
    let categoryId := get_prop (req_body req) "categoryId" in
    try_catch
      (category <- Category_findOne rejects id ;;
       match category with
       | None => ret (mkResponse 404 (BodyMessage "Category not found"))
       | Some _ =>
           Category_update rejects name description price categoryId id ;;
           ret (mkResponse 200 (BodyMessage "Category updated successfully"))
       end)
      (fun err => ret (mkResponse 500 (BodyError (err_message err)))).

Definition categoryRoute_patch (rejects : Rejects) : Handler :=
  route [authenticateToken; authorizeRoles ["admin"]]
        (categories_patch_handler rejects).

(** The handler of [productRoute.get('/:id', ...)]. *)
Definition products_get_one_handler : Handler :=
  fun env req =>
    let id := params_id req in
    try_catch
      (product <- Product_findOne env id ;;
       match product with
       | None => ret (mkResponse 404 (BodyMessage "Product not found"))
       | Some _ => ret (mkResponse 200 (BodyProduct product))
       end)
      (fun err => ret (mkResponse 500 (BodyErr (err_json err)))).

Definition productRoute_get_one : Handler :=
  route [authenticateToken] products_get_one_handler.

(** The handler of [productRoute.delete('/:id', ...)]. *)
Definition products_delete_handler (rejects : Rejects) : Handler :=
  fun env req =>
    let id := params_id req in
    try_catch
      (product <- Product_destroy rejects id ;;
       if negb (truthy (JNum product))
       then ret (mkResponse 404 (BodyMessage "Product not found"))
       else ret (mkResponse 200 (BodyMessage "Product deleted successfully")))
      (fun err => ret (mkResponse 500 (BodyErr (err_json err)))).

Definition productRoute_delete (rejects : Rejects) : Handler :=
  route [authenticateToken; authorizeRoles ["admin"]]
        (products_delete_handler rejects).

(** The bodies {category}, {products} and {product} of a created product,
    which the routes above do not send. *)
Inductive Payload : Type :=
| BodyCategory (category : Category)
| BodyProducts (products : list (Product * option Category))
| BodyCreated (product : Product).

(** What a route answers: one of the responses above, or a status with one
    of these bodies. *)
Inductive Answer : Type :=
| Plain (res : Response)
| Rich (code : Z) (payload : Payload).

Definition answer_status (a : Answer) : Z :=
  match a with
  | Plain res => status res
  | Rich code _ => code
  end.

Definition Responder : Type := Env -> Request -> M Answer.

(** [route] for these handlers. *)
Fixpoint route_rich (mws : list Middleware) (handler : Responder) : Responder :=
  fun env req =>
    match mws with
    | [] => handler env req
    | mw :: rest =>
        step <- mw env req ;;
        match step with
        | Next req' => route_rich rest handler env req'
        | Send res => ret (Plain res)
        end
    end.

(** A route of the first kind among these. *)
Definition plainly (h : Handler) : Responder :=
  fun env req => res <- h env req ;; ret (Plain res).

(** The handler of [categoryRoute.get("/:id", ...)]. *)
Definition categories_get_one_handler (rejects : Rejects) : Responder :=
  fun env req =>
    let id := params_id req in
    try_catch
      (category <- Category_findOne rejects id ;;
       match category with
       | None => ret (Plain (mkResponse 404 (BodyMessage "Category not found")))
       | Some category => ret (Rich 200 (BodyCategory category))
       end)
      (fun err => ret (Plain (mkResponse 500 (BodyError (err_message err))))).

Definition categoryRoute_get_one (rejects : Rejects) : Responder :=
  route_rich [authenticateToken; authorizeRoles ["admin"]]
             (categories_get_one_handler rejects).

(** The handler of [categoryRoute.post("/", ...)]. *)
Definition categories_post_handler (rejects : Rejects) : Responder :=
  fun env req =>
    try_catch
      (let name := get_prop (req_body req) "name" in
       category <- Category_create rejects name ;;
       ret (Rich 201 (BodyCategory category)))
      (fun err => ret (Plain (mkResponse 500 (BodyError (err_message err))))).

Definition categoryRoute_post (rejects : Rejects) : Responder :=
  route_rich [authenticateToken; authorizeRoles ["admin"]]
             (categories_post_handler rejects).

(** The handler of [productRoute.get("/", ...)]. *)
Definition products_get_handler (rejects : Rejects) : Responder :=
  fun env req =>
    try_catch
      (products <- Product_findAll rejects ;;
       ret (Rich 200 (BodyProducts products)))
      (fun err => ret (Plain (mkResponse 500 (BodyErr (err_json err))))).

Definition productRoute_get (rejects : Rejects) : Responder :=
  route_rich [authenticateToken] (products_get_handler rejects).

(** The handler of [productRoute.post('/', ...)]. *)
Definition products_post_handler (rejects : Rejects) : Responder :=
  fun env req =>
    try_catch
      (let name := get_prop (req_body req) "name" in
       let description := get_prop (req_body req) "description" in
       let price := get_prop (req_body req) "price" in
       let categoryId := get_prop (req_body req) "categoryId" in
       product <- Product_create rejects name description price categoryId ;;
       ret (Rich 201 (BodyCreated product)))
      (fun err => ret (Plain (mkResponse 500 (BodyErr (err_json err))))).

Definition productRoute_post (rejects : Rejects) : Responder :=
  route_rich [authenticateToken; authorizeRoles ["admin"]]
             (products_post_handler rejects).

(** ** app.js: all the routes *)

Inductive Route : Type :=
| Mounted (ep : Endpoint)
| GET_categories_id
| POST_categories
| PATCH_categories_id
| GET_products
| GET_products_id
| POST_products
| DELETE_products_id.

Definition respond {bc : Bcrypt} (rejects : Rejects) (r : Route) : Responder :=
  match r with
  | Mounted ep => plainly (dispatch ep)
  | GET_categories_id => categoryRoute_get_one rejects
  | POST_categories => categoryRoute_post rejects
  | PATCH_categories_id => plainly (categoryRoute_patch rejects)
  | GET_products => productRoute_get rejects
  | GET_products_id => plainly productRoute_get_one
  | POST_products => productRoute_post rejects
  | DELETE_products_id => plainly (productRoute_delete rejects)
  end.

(** One request as the server sees it: the route, the database's answers,
    the environment and the request. *)
Definition Call : Type := Route * Rejects * Env * Request.

(** The world after a sequence of requests to any of the routes. *)
Fixpoint serve_all {bc : Bcrypt} (calls : list Call) (w : World) : World :=
  match calls with
  | [] => w
  | (r, rejects, env, req) :: rest =>
      serve_all rest (snd (respond rejects r env req w))
  end.

(** The string emails of the users table, in row order. *)
Definition string_emails (us : list User) : list string :=
  flat_map (fun u => match user_email u with
                     | JStr email => [email]
                     | _ => []
                     end) us.

(** ** What a computation leaves in place *)

(** [m] takes every world to one related to it by [R]. *)
Definition keeps (R : World -> World -> Prop) {A} (m : M A) : Prop :=
  forall w, R w (snd (m w)).

Definition same_users (w w' : World) : Prop := users w' = users w.
Definition same_categories (w w' : World) : Prop := categories w' = categories w.
Definition same_products (w w' : World) : Prop := products w' = products w.

(** The relations [keeps] composes along: preorders that recording an ORM
    call and printing to the console respect. *)
Class Frame (R : World -> World -> Prop) : Prop := {
  frame_refl : forall w, R w w;
  frame_trans : forall w1 w2 w3, R w1 w2 -> R w2 w3 -> R w1 w3;
  frame_record : forall op w, R w (record_call op w);
  frame_console : forall u w, R w (snd (console_log u w))
}.

(** Whether a product row whose categoryId column holds [v] may refer to
    the category with id [n] (models/Product.model.js: categoryId references
    Category.id). Null refers to none; anything that is not an integer is
    taken to refer to it. *)
Definition may_reference (v : JsVal) (n : Z) : bool :=
  match v with
  | JUndefined | JNull => false
  | JNum m => m =? n
  | _ => true
  end.

(** * Properties *)

Example register_alice :
  register (bc := reference_bcrypt) env0 alice_registration empty_world
  = (Ok (mkResponse 201 (BodyUser alice)), world_with_alice).
Proof. reflexivity. Qed.

Example login_alice :
  login (bc := reference_bcrypt) env0 alice_login world_with_alice
  = (Ok (mkResponse 200
           (BodyLogin alice
              (mkJwt (mkClaims 1 (JStr "user") 1700000000 1700003600) "s3cret"))),
     mkWorld [alice] [] [] [User_findOne_op; User_create_op; User_findOne_op]
             [Some alice]).
Proof. reflexivity. Qed.

Example login_alice_wrong_password :
  fst (login (bc := reference_bcrypt) env0
         (post [("email", JStr "a@x.com"); ("password", JStr "wrong")])
         world_with_alice)
  = Ok (mkResponse 401 (BodyMessage "Invalid credentials")).
Proof. reflexivity. Qed.


Example delete_category_as_admin :
  categoryRoute_delete env0 (with_token admin_token "1" []) shop
  = (Ok (mkResponse 200 (BodyMessage "Category deleted successfully")),
     mkWorld [alice] [mkCategory 2 (JStr "Football")]
             [mkProduct 1 (JStr "Bat") (JStr "Willow") (JNum 40) (JNum 1)]
             [Category_destroy_op] []).
Proof. reflexivity. Qed.

Example delete_missing_category :
  fst (categoryRoute_delete env0 (with_token admin_token "99" []) shop)
  = Ok (mkResponse 404 (BodyMessage "Category not found")).
Proof. reflexivity. Qed.

Example delete_category_expired_token :
  categoryRoute_delete (at_time env0 1700003600000)
    (with_token admin_token "1" []) shop
  = (Ok (mkResponse 401 (BodyAuth AuthInvalid)), shop).
Proof. reflexivity. Qed.

Example patch_product :
  productRoute_patch env0
    (with_token admin_token "1" [("price", JNum 45)]) shop
  = (Ok (mkResponse 200 (BodyMessage "Product updated successfully")),
     mkWorld [alice]
             [mkCategory 1 (JStr "Cricket"); mkCategory 2 (JStr "Football")]
             [mkProduct 1 (JStr "Bat") (JStr "Willow") (JNum 45) (JNum 1)]
             [Product_update_op] []).
Proof. reflexivity. Qed.

Example ms_samples :
  ms "1h" = Some 3600000 /\ ms "2d" = Some 172800000 /\ ms "500" = Some 500.
Proof. repeat split; reflexivity. Qed.

Example destructure_array :
  get_prop (JArr [JNum 1]) "updated" = JUndefined /\
  get_prop (JArr [JNum 1]) "0" = JNum 1 /\
  get_prop (JArr [JNum 1]) "length" = JNum 1.
Proof. repeat split; reflexivity. Qed.

Ltac unfold_js :=
  unfold bind, ret, throw, lift, try_catch, orm_call, console_log,
    record_call, set_users, set_categories, set_products in *.

(** Case analysis on an innermost scrutinee of the goal. *)
Ltac split_match :=
  match goal with
  | |- context [match ?x with _ => _ end] =>
      lazymatch x with
      | context [match _ with _ => _ end] => fail
      | _ => destruct x eqn:?
      end
  end.

Lemma find_app_some {A} (f : A -> bool) (l l' : list A) (x : A) :
  find f l = Some x -> find f (l ++ l') = Some x.
Proof.
  induction l as [|a l IH]; simpl; [discriminate|].
  destruct (f a); auto.
Qed.

Lemma find_app_none {A} (f : A -> bool) (l l' : list A) :
  find f l = None -> find f (l ++ l') = find f l'.
Proof.
  induction l as [|a l IH]; simpl; [reflexivity|].
  destruct (f a); [discriminate|auto].
Qed.

Lemma timespan_1h (iat : Z) : timespan "1h" iat = Some (iat + 3600).
Proof. reflexivity. Qed.

(** The token /user/login issues when the secret is configured. *)
Lemma jwt_sign_1h id role key clock :
  key <> "" ->
  jwt_sign id role (Some key) "1h" clock
  = Ok (mkJwt (mkClaims id role (clock / 1000) (clock / 1000 + 3600)) key).
Proof.
  intros Hne. unfold jwt_sign.
  destruct (key =? "")%string eqn:Ek; [apply String.eqb_eq in Ek; contradiction|].
  now rewrite timespan_1h.
Qed.

Section UserRouteFacts.
Context {bc : Bcrypt}.

(** What a 201 from /user/register tells: the lookup found nobody, the
    password was hashed, and the row sent back is the one appended. *)
Lemma register_created env req w u w' :
  register env req w = (Ok (mkResponse 201 (BodyUser u)), w') ->
  exists hashed,
    find (fun x => sql_eq (user_email x) (get_prop (req_body req) "email"))
         (users w) = None /\
    bcrypt_hash (get_prop (req_body req) "password") 10 (salt env) = Ok hashed /\
    u = mkUser (fresh_id (map user_id (users w)))
               (get_prop (req_body req) "name")
               (get_prop (req_body req) "email")
               hashed
               (get_prop (req_body req) "role") /\
    users w' = (users w ++ [u])%list.
Proof.
  unfold register, User_findOne, User_create. unfold_js. simpl.
  destruct (fault env User_findOne_op); [discriminate|].
  destruct (find _ (users w)) eqn:Hfind; [discriminate|].
  destruct (bcrypt_hash _ 10 (salt env)) as [hashed|] eqn:Hhash; [|discriminate].
  destruct (fault env User_create_op); [discriminate|].
  intros H. inversion H; subst; clear H.
  exists hashed. simpl. auto.
Qed.

Lemma grows_ret {A} (a : A) : grows (ret a).
Proof. intros w. exists []. simpl. now rewrite app_nil_r. Qed.

Lemma grows_throw {A} e : grows (@throw A e).
Proof. intros w. exists []. simpl. now rewrite app_nil_r. Qed.

Lemma grows_lift {A} (r : Result A) : grows (lift r).
Proof. intros w. exists []. simpl. now rewrite app_nil_r. Qed.

Lemma grows_console_log u : grows (console_log u).
Proof. intros w. exists []. simpl. now rewrite app_nil_r. Qed.

Lemma grows_bind {A B} (m : M A) (k : A -> M B) :
  grows m -> (forall a, grows (k a)) -> grows (bind m k).
Proof.
  intros Hm Hk w. unfold bind.
  destruct (Hm w) as [x1 H1]. destruct (m w) as [[a|e] w1]; simpl in *.
  - destruct (Hk a w1) as [x2 H2]. exists (x1 ++ x2)%list.
    now rewrite H2, H1, app_assoc.
  - now exists x1.
Qed.

Lemma grows_try_catch {A} (m : M A) (h : JsError -> M A) :
  grows m -> (forall e, grows (h e)) -> grows (try_catch m h).
Proof.
  intros Hm Hh w. unfold try_catch.
  destruct (Hm w) as [x1 H1]. destruct (m w) as [[a|e] w1]; simpl in *.
  - now exists x1.
  - destruct (Hh e w1) as [x2 H2]. exists (x1 ++ x2)%list.
    now rewrite H2, H1, app_assoc.
Qed.

Lemma grows_orm_call {A} env op (query : World -> A * World) :
  (forall w, exists extra, users (snd (query w)) = (users w ++ extra)%list) ->
  grows (orm_call env op query).
Proof.
  intros Hq w. unfold orm_call.
  destruct (fault env op).
  - exists []. simpl. now rewrite app_nil_r.
  - destruct (Hq (record_call op w)) as [x Hx].
    destruct (query (record_call op w)) as [a w2]. now exists x.
Qed.

Lemma grows_route mws (h : Handler) :
  Forall (fun mw : Middleware => forall env req, grows (mw env req)) mws ->
  (forall env req, grows (h env req)) ->
  forall env req, grows (route mws h env req).
Proof.
  intros Hmws Hh. induction Hmws as [|mw rest Hmw _ IH]; intros env req; simpl.
  - apply Hh.
  - apply grows_bind; [apply Hmw|].
    intros [req'|res]; [apply IH|apply grows_ret].
Qed.

Ltac grows_step :=
  first [ apply grows_ret | apply grows_throw | apply grows_lift
        | apply grows_console_log
        | apply grows_bind; [|intros ?]
        | apply grows_try_catch; [|intros ?]
        | apply grows_orm_call; intros ?; simpl;
          try (destruct (find _ _); simpl);
          first [ exists []; now rewrite app_nil_r | eexists; reflexivity ]
        | match goal with
          | |- grows (match ?x with _ => _ end) => destruct x
          | |- grows (if ?x then _ else _) => destruct x
          | |- grows (let (_, _) := ?x in _) => destruct x
          end ].

Lemma grows_gate allowedRoles :
  Forall (fun mw : Middleware => forall env req, grows (mw env req))
         [authenticateToken; authorizeRoles allowedRoles].
Proof.
  repeat constructor; intros env req;
    unfold authenticateToken, authorizeRoles; repeat grows_step.
Qed.

Lemma dispatch_users ep env req : grows (dispatch ep env req).
Proof.
  destruct ep; simpl.
  - unfold register, User_findOne, User_create. repeat grows_step.
  - unfold login, User_findOne. repeat grows_step.
  - apply grows_route; [apply grows_gate|]. clear. intros env req.
    unfold categories_get_handler, Category_findAll. repeat grows_step.
  - apply grows_route; [apply grows_gate|]. clear. intros env req.
    unfold categories_delete_handler, Category_destroy. repeat grows_step.
  - apply grows_route; [apply grows_gate|]. clear. intros env req.
    unfold products_patch_handler, Product_update, Product_findOne.
    repeat grows_step.
Qed.

Lemma serve_users calls : forall w,
  exists extra, users (serve calls w) = (users w ++ extra)%list.
Proof.
  induction calls as [|[[ep env] req] rest IH]; intros w; simpl.
  - exists []. now rewrite app_nil_r.
  - destruct (IH (snd (dispatch ep env req w))) as [extra2 H2].
    destruct (dispatch_users ep env req w) as [extra1 H1].
    exists (extra1 ++ extra2)%list. now rewrite H2, H1, app_assoc.
Qed.

End UserRouteFacts.

Lemma is_suffix_refl s : is_suffix s s = true.
Proof. destruct s; cbn [is_suffix]; now rewrite String.eqb_refl. Qed.

Lemma is_suffix_app_r s a : forall h,
  is_suffix s h = true -> is_suffix s (a ++ h) = true.
Proof.
  induction a as [|c a IH]; intros h H; [exact H|].
  cbn [append is_suffix]. rewrite (IH h H). apply orb_true_r.
Qed.

Lemma prefix_app p s : prefix p (p ++ s) = true.
Proof.
  induction p as [|c p IH]; [now destruct s|].
  cbn [append prefix]. now destruct (ascii_dec c c).
Qed.

Lemma reference_bcrypt_sound : bcrypt_sound reference_bcrypt.
Proof.
  intros data rounds salt hashed H.
  destruct data; cbn [bcrypt_hash reference_bcrypt reference_hash] in H;
    try discriminate.
  injection H as <-.
  cbn [bcrypt_compare reference_bcrypt reference_compare].
  assert (Hp := prefix_app "$2b$" (salt ++ "$" ++ s)).
  assert (Hs : is_suffix ("$" ++ s) ("$2b$" ++ salt ++ "$" ++ s) = true)
    by now apply is_suffix_app_r, is_suffix_app_r, is_suffix_refl.
  cbn [append] in Hp, Hs |- *. now rewrite Hp, Hs.
Qed.

(** C1. A user registered once with a string email and password logs in
    with the same pair: whatever requests the server has served in between,
    the answer is 200 with {user, token}, the user being the registered row
    and the token signed with the process secret and carrying that row's id
    and role. *)
Theorem login_after_register {bc : Bcrypt}
    (env1 env2 : Env) (reg req : Request) (w1 w2 : World) (u : User)
    (calls : list (Endpoint * Env * Request)) (email password key : string) :
  bcrypt_sound bc ->
  get_prop (req_body reg) "email" = JStr email ->
  get_prop (req_body reg) "password" = JStr password ->
  register env1 reg w1 = (Ok (mkResponse 201 (BodyUser u)), w2) ->
  get_prop (req_body req) "email" = JStr email ->
  get_prop (req_body req) "password" = JStr password ->
  fault env2 User_findOne_op = None ->
  SECRET_KEY env2 = Some key ->
  key <> "" ->
  exists token w4,
    login env2 req (serve calls w2)
      = (Ok (mkResponse 200 (BodyLogin u token)), w4) /\
    jwt_key token = key /\
    claim_id (jwt_claims token) = user_id u /\
    claim_role (jwt_claims token) = user_role u.
Proof.
  intros Hbc Eemail Epw Hreg Eemail' Epw' Hup Hkey Hne.
  destruct (register_created _ _ _ _ _ Hreg) as (hashed & Hnone & Hhash & Hu & Hw2).
  rewrite Eemail in Hnone, Hu. rewrite Epw in Hhash.
  assert (Hfind : find (fun x => sql_eq (user_email x) (JStr email))
                       (users (serve calls w2)) = Some u).
  { destruct (serve_users calls w2) as [extra ->].
    apply find_app_some. rewrite Hw2, find_app_none by exact Hnone.
    simpl. rewrite Hu at 1. simpl. now rewrite String.eqb_refl. }
  apply Hbc in Hhash.
  assert (Epass : user_password u = hashed) by (rewrite Hu; reflexivity).
  unfold login, User_findOne. unfold_js. cbn [fst snd users].
  rewrite Hup, Eemail', Epw', Hfind, Epass, Hhash, Hkey.
  rewrite (jwt_sign_1h _ _ _ _ Hne).
  eexists. eexists. split; [reflexivity|]. simpl. auto.
Qed.

Lemma login_after_register_witness :
  exists token w4,
    login (bc := reference_bcrypt) (at_time env0 1700000900000) alice_login
      (serve (bc := reference_bcrypt)
         [(POST_user_login, env0, alice_login);
          (POST_user_register, env0,
           post [("name", JStr "B"); ("email", JStr "b@x.com");
                 ("password", JStr "pw2"); ("role", JStr "admin")])]
         world_with_alice)
      = (Ok (mkResponse 200 (BodyLogin alice token)), w4) /\
    jwt_key token = "s3cret" /\
    claim_id (jwt_claims token) = user_id alice /\
    claim_role (jwt_claims token) = user_role alice.
Proof.
  apply (login_after_register (bc := reference_bcrypt) env0
           (at_time env0 1700000900000) alice_registration alice_login
           empty_world world_with_alice alice _ "a@x.com" "pw" "s3cret").
  - exact reference_bcrypt_sound.
  - reflexivity.
  - reflexivity.
  - reflexivity.
  - reflexivity.
  - reflexivity.
  - reflexivity.
  - reflexivity.
  - discriminate.
Defined.

Lemma find_present {A} (f : A -> bool) (l : list A) (x : A) :
  In x l -> f x = true -> exists y, find f l = Some y.
Proof.
  intros Hin Hf. destruct (find f l) as [y|] eqn:E; [now exists y|].
  rewrite (find_none f l E x Hin) in Hf. discriminate.
Qed.

(** C4. Registering an email that a stored user already has is answered
    400 "User already exists"; the handler stops after the lookup, so the
    tables are as they were and no row was created or rewritten. *)
Theorem register_duplicate {bc : Bcrypt}
    (env : Env) (req : Request) (w : World) (u : User) (email : string) :
  In u (users w) ->
  user_email u = JStr email ->
  get_prop (req_body req) "email" = JStr email ->
  fault env User_findOne_op = None ->
  register env req w
  = (Ok (mkResponse 400 (BodyMessage "User already exists")),
     record_call User_findOne_op w) /\
  users (record_call User_findOne_op w) = users w.
Proof.
  intros Hin Hmail Hreq Hup.
  destruct (find_present (fun x => sql_eq (user_email x) (JStr email))
              (users w) u Hin) as [y Hy].
  { rewrite Hmail. simpl. apply String.eqb_refl. }
  split; [|reflexivity].
  unfold register, User_findOne. unfold_js. cbn [users].
  now rewrite Hup, Hreq, Hy.
Qed.

Lemma register_duplicate_witness :
  register (bc := reference_bcrypt) env0 alice_registration world_with_alice
  = (Ok (mkResponse 400 (BodyMessage "User already exists")),
     record_call User_findOne_op world_with_alice) /\
  users (record_call User_findOne_op world_with_alice) = users world_with_alice.
Proof.
  apply (register_duplicate (bc := reference_bcrypt) env0 alice_registration
           world_with_alice alice "a@x.com").
  - simpl. left. reflexivity.
  - reflexivity.
  - reflexivity.
  - reflexivity.
Defined.

(** C5, as stated, fails: when the request has no password, a login for
    an email nobody has is answered 401 while a login for a stored email is
    answered 500, bcrypt.compare having thrown; the two failures differ in
    status and body, and tell whether the email exists. *)
Lemma login_failure_reveals_email :
  fst (login (bc := reference_bcrypt) env0
         (post [("email", JStr "nobody@x.com")]) world_with_alice)
  = Ok (mkResponse 401 (BodyMessage "Invalid credentials")) /\
  fst (login (bc := reference_bcrypt) env0
         (post [("email", JStr "a@x.com")]) world_with_alice)
  = Ok (mkResponse 500 (BodyErr (JObj []))) /\
  ~ (forall env req1 req2 w u r1 r2,
       find (fun x => sql_eq (user_email x) (get_prop (req_body req1) "email"))
            (users w) = None ->
       find (fun x => sql_eq (user_email x) (get_prop (req_body req2) "email"))
            (users w) = Some u ->
       fst (login (bc := reference_bcrypt) env req1 w) = Ok r1 ->
       fst (login (bc := reference_bcrypt) env req2 w) = Ok r2 ->
       status r2 <> 200 ->
       status r1 = status r2 /\ body r1 = body r2).
Proof.
  split; [reflexivity|]. split; [reflexivity|].
  intros H.
  destruct (H env0 (post [("email", JStr "nobody@x.com")])
              (post [("email", JStr "a@x.com")]) world_with_alice alice
              _ _ eq_refl eq_refl eq_refl eq_refl) as [Hstatus _].
  - discriminate.
  - discriminate Hstatus.
Qed.

(** C5, amended. With both lookups answered, a login for an email nobody
    has and a login for a stored email whose password bcrypt.compare
    resolves to false are answered alike: 401 with the message "Invalid
    credentials". *)
Theorem login_failures_alike {bc : Bcrypt}
    (env1 env2 : Env) (req1 req2 : Request) (w1 w2 : World) (u : User) :
  fault env1 User_findOne_op = None ->
  find (fun x => sql_eq (user_email x) (get_prop (req_body req1) "email"))
       (users w1) = None ->
  fault env2 User_findOne_op = None ->
  find (fun x => sql_eq (user_email x) (get_prop (req_body req2) "email"))
       (users w2) = Some u ->
  bcrypt_compare (get_prop (req_body req2) "password")
                 (JStr (user_password u)) = Ok false ->
  fst (login env1 req1 w1)
  = Ok (mkResponse 401 (BodyMessage "Invalid credentials")) /\
  fst (login env2 req2 w2) = fst (login env1 req1 w1).
Proof.
  intros Hup1 Habsent Hup2 Hfound Hbad.
  assert (H1 : fst (login env1 req1 w1)
               = Ok (mkResponse 401 (BodyMessage "Invalid credentials"))).
  { unfold login, User_findOne. unfold_js. cbn [users].
    now rewrite Hup1, Habsent. }
  split; [exact H1|]. rewrite H1.
  unfold login, User_findOne. unfold_js. cbn [users].
  now rewrite Hup2, Hfound, Hbad.
Qed.

Lemma login_failures_alike_witness :
  fst (login (bc := reference_bcrypt) env0
         (post [("email", JStr "nobody@x.com"); ("password", JStr "pw")])
         world_with_alice)
  = Ok (mkResponse 401 (BodyMessage "Invalid credentials")) /\
  fst (login (bc := reference_bcrypt) env0
         (post [("email", JStr "a@x.com"); ("password", JStr "wrong")])
         world_with_alice)
  = fst (login (bc := reference_bcrypt) env0
           (post [("email", JStr "nobody@x.com"); ("password", JStr "pw")])
           world_with_alice).
Proof.
  apply (login_failures_alike (bc := reference_bcrypt) env0 env0 _ _
           world_with_alice world_with_alice alice);
    reflexivity.
Defined.

Lemma length_app (a b : string) :
  String.length (a ++ b) = (String.length a + String.length b)%nat.
Proof. induction a as [|c a IH]; simpl; [reflexivity|now rewrite IH]. Qed.

Lemma reference_bcrypt_one_way : bcrypt_one_way reference_bcrypt.
Proof.
  intros data rounds salt hashed H.
  destruct data; cbn [bcrypt_hash reference_bcrypt reference_hash] in H;
    try discriminate.
  injection H as <-. intros E. injection E as E.
  apply (f_equal String.length) in E.
  cbn [append String.length] in E. rewrite length_app in E.
  cbn [String.length] in E. lia.
Qed.

(** C6. When /user/register answers 201, the row it appended to the users
    table carries the bcrypt hash of the submitted password in its password
    column, which differs from the submitted value; the body sent is {user}
    with exactly that row, and the row stays in the table through every later
    request. *)
Theorem register_stores_hash {bc : Bcrypt}
    (env : Env) (req : Request) (w w' : World) (r : Response) :
  bcrypt_one_way bc ->
  register env req w = (Ok r, w') ->
  status r = 201 ->
  exists u hashed,
    body r = BodyUser u /\
    users w' = (users w ++ [u])%list /\
    bcrypt_hash (get_prop (req_body req) "password") 10 (salt env) = Ok hashed /\
    user_password u = hashed /\
    get_prop (req_body req) "password" <> JStr (user_password u) /\
    forall calls, In u (users (serve calls w')).
Proof.
  intros Hbc Hreg Hst.
  assert (exists u, r = mkResponse 201 (BodyUser u)) as [u ->].
  { revert Hreg. unfold register, User_findOne, User_create. unfold_js.
    cbn [users].
    repeat split_match; intros H; inversion H; subst; simpl in Hst;
      try discriminate.
    eexists; reflexivity. }
  destruct (register_created _ _ _ _ _ Hreg) as (hashed & _ & Hhash & Hu & Hw').
  exists u, hashed. repeat split; auto.
  - rewrite Hu; reflexivity.
  - rewrite Hu; simpl. exact (Hbc _ _ _ _ Hhash).
  - intros calls. destruct (serve_users calls w') as [extra ->].
    rewrite Hw'. apply in_or_app. left. apply in_or_app. right. now left.
Qed.

Lemma register_stores_hash_witness :
  exists u hashed,
    body (mkResponse 201 (BodyUser alice)) = BodyUser u /\
    users world_with_alice = (users empty_world ++ [u])%list /\
    bcrypt_hash (Bcrypt := reference_bcrypt)
      (get_prop (req_body alice_registration) "password") 10 (salt env0)
      = Ok hashed /\
    user_password u = hashed /\
    get_prop (req_body alice_registration) "password" <> JStr (user_password u) /\
    forall calls,
      In u (users (serve (bc := reference_bcrypt) calls world_with_alice)).
Proof.
  apply (register_stores_hash (bc := reference_bcrypt) env0 alice_registration
           empty_world world_with_alice (mkResponse 201 (BodyUser alice))).
  - exact reference_bcrypt_one_way.
  - reflexivity.
  - reflexivity.
Defined.

(** C7, as stated, fails: with the database unreachable, /user/login
    answers 500 with the caught Sequelize error in the body, the driver's
    error object (host address and port) included; so not every 500 body is
    a bare message. *)
Lemma login_error_body_leaks :
  fst (login (bc := reference_bcrypt) env_refused alice_login world_with_alice)
  = Ok (mkResponse 500
          (BodyErr (JObj [("name", JStr "SequelizeConnectionRefusedError");
                          ("parent", driver_refusal);
                          ("original", driver_refusal)]))) /\
  ~ (forall env req w r w',
       login (bc := reference_bcrypt) env req w = (Ok r, w') ->
       status r = 500 ->
       exists message, body r = BodyMessage message).
Proof.
  split; [reflexivity|].
  intros H.
  destruct (H env_refused alice_login world_with_alice _ _ eq_refl eq_refl)
    as [message Hm].
  discriminate Hm.
Qed.

(** C7, amended. An error caught by the handler of /user/login (thrown by
    the lookup, by bcrypt.compare or by jwt.sign) or of /user/register
    (thrown by User.create) is answered 500 with the body {err}: the caught
    error object as JSON renders it, that is its own enumerable properties,
    whatever they hold; its message and stack are not rendered. *)
Theorem caught_error_is_sent {bc : Bcrypt}
    (env : Env) (req : Request) (w : World) (e : JsError) :
  (fault env User_findOne_op = Some e ->
   fst (login env req w)
   = Ok (mkResponse 500 (BodyErr (JObj (err_props e))))) /\
  (forall u,
     fault env User_findOne_op = None ->
     find (fun x => sql_eq (user_email x) (get_prop (req_body req) "email"))
          (users w) = Some u ->
     bcrypt_compare (get_prop (req_body req) "password")
                    (JStr (user_password u)) = Err e ->
     fst (login env req w)
     = Ok (mkResponse 500 (BodyErr (JObj (err_props e))))) /\
  (forall u,
     fault env User_findOne_op = None ->
     find (fun x => sql_eq (user_email x) (get_prop (req_body req) "email"))
          (users w) = Some u ->
     bcrypt_compare (get_prop (req_body req) "password")
                    (JStr (user_password u)) = Ok true ->
     jwt_sign (user_id u) (user_role u) (SECRET_KEY env) "1h" (now env) = Err e ->
     fst (login env req w)
     = Ok (mkResponse 500 (BodyErr (JObj (err_props e))))) /\
  (forall hashed,
     fault env User_findOne_op = None ->
     find (fun x => sql_eq (user_email x) (get_prop (req_body req) "email"))
          (users w) = None ->
     bcrypt_hash (get_prop (req_body req) "password") 10 (salt env) = Ok hashed ->
     fault env User_create_op = Some e ->
     fst (register env req w)
     = Ok (mkResponse 500 (BodyErr (JObj (err_props e))))).
Proof.
  repeat split.
  - intros Hdown. unfold login, User_findOne. unfold_js. now rewrite Hdown.
  - intros u Hup Hfind Hcmp. unfold login, User_findOne. unfold_js.
    cbn [users]. now rewrite Hup, Hfind, Hcmp.
  - intros u Hup Hfind Hcmp Hsign. unfold login, User_findOne. unfold_js.
    cbn [users]. now rewrite Hup, Hfind, Hcmp, Hsign.
  - intros hashed Hup Hfind Hhash Hdown.
    unfold register, User_findOne, User_create. unfold_js.
    cbn [users]. now rewrite Hup, Hfind, Hhash, Hdown.
Qed.

Lemma caught_error_is_sent_witness :
  fst (login (bc := reference_bcrypt) env_refused alice_login world_with_alice)
  = Ok (mkResponse 500 (BodyErr (JObj (err_props connection_refused)))) /\
  fst (register (bc := reference_bcrypt)
         (mkEnv (Some "s3cret") 1700000000123 "N9qo8uLOickgx2ZMRZoMye"
                (failing User_create_op connection_refused))
         alice_registration empty_world)
  = Ok (mkResponse 500 (BodyErr (JObj (err_props connection_refused)))).
Proof.
  split.
  - apply (proj1 (caught_error_is_sent (bc := reference_bcrypt) env_refused
                    alice_login world_with_alice connection_refused)).
    reflexivity.
  - apply (proj2 (proj2 (proj2
             (caught_error_is_sent (bc := reference_bcrypt)
                (mkEnv (Some "s3cret") 1700000000123 "N9qo8uLOickgx2ZMRZoMye"
                       (failing User_create_op connection_refused))
                alice_registration empty_world connection_refused)))
           "$2b$N9qo8uLOickgx2ZMRZoMye$pw");
      reflexivity.
Defined.

(** C8. In /user/register the call of bcrypt.hash stands before the [try]
    block: when hashing rejects, the error leaves the handler, no response
    is sent and nothing is created. *)
Theorem register_hash_failure_escapes {bc : Bcrypt}
    (env : Env) (req : Request) (w : World) (e : JsError) :
  fault env User_findOne_op = None ->
  find (fun x => sql_eq (user_email x) (get_prop (req_body req) "email"))
       (users w) = None ->
  bcrypt_hash (get_prop (req_body req) "password") 10 (salt env) = Err e ->
  register env req w = (Err e, record_call User_findOne_op w).
Proof.
  intros Hup Hfind Hhash.
  unfold register, User_findOne. unfold_js. cbn [users].
  now rewrite Hup, Hfind, Hhash.
Qed.

Lemma register_hash_failure_escapes_witness :
  register (bc := reference_bcrypt) env0
    (post [("name", JStr "A"); ("email", JStr "a@x.com")]) empty_world
  = (Err (Error "data and salt arguments required"),
     record_call User_findOne_op empty_world).
Proof.
  apply (register_hash_failure_escapes (bc := reference_bcrypt) env0
           (post [("name", JStr "A"); ("email", JStr "a@x.com")]) empty_world
           (Error "data and salt arguments required"));
    reflexivity.
Defined.

Lemma includes_In allowedRoles role :
  includes allowedRoles role = true <->
  exists r, role = JStr r /\ In r allowedRoles.
Proof.
  unfold includes. split.
  - destruct role; try discriminate. intros H.
    apply existsb_exists in H as (x & Hin & Hx).
    apply String.eqb_eq in Hx. subst x. eauto.
  - intros (r & -> & Hin). apply existsb_exists.
    exists r. split; [exact Hin|apply String.eqb_refl].
Qed.

Lemma includes_admin role :
  role <> JStr "admin" -> includes ["admin"] role = false.
Proof.
  intros Hne. destruct (includes ["admin"] role) eqn:E; [|reflexivity].
  apply includes_In in E as (r & -> & [<-|[]]). contradiction.
Qed.

(** C2. On DELETE /categories/:id a request that presents no bearer token
    is answered 401, and one with a valid token whose role is not "admin" is
    answered 403; in both cases whatever handler stands behind the gate is
    not run and the world, the record of ORM calls included, is as before.
    The Role Authorizer permits exactly the identities whose role is one of
    the allowed roles. *)
Theorem categories_delete_gate (env : Env) (req : Request) (w : World) :
  ((forall token, authorization req <> Some (Bearer token)) ->
   categoryRoute_delete env req w
   = (Ok (mkResponse 401 (BodyAuth AuthInvalid)), w) /\
   forall h : Handler,
     route [authenticateToken; authorizeRoles ["admin"]] h env req w
     = (Ok (mkResponse 401 (BodyAuth AuthInvalid)), w)) /\
  (forall token claims,
     authorization req = Some (Bearer token) ->
     jwt_verify token (SECRET_KEY env) (now env) = Ok claims ->
     claim_role claims <> JStr "admin" ->
     categoryRoute_delete env req w
     = (Ok (mkResponse 403 (BodyAuth AuthForbidden)), w) /\
     forall h : Handler,
       route [authenticateToken; authorizeRoles ["admin"]] h env req w
       = (Ok (mkResponse 403 (BodyAuth AuthForbidden)), w)) /\
  (forall identity allowedRoles,
     Role_Authorizer identity allowedRoles = inl tt <->
     exists r, identity_role identity = JStr r /\ In r allowedRoles).
Proof.
  split; [|split; [|split]].
  - intros Hnone. assert (Hall : forall h : Handler,
      route [authenticateToken; authorizeRoles ["admin"]] h env req w
      = (Ok (mkResponse 401 (BodyAuth AuthInvalid)), w)).
    { intros h. cbn [route]. unfold authenticateToken, Token_Verifier.
      destruct (authorization req) as [[token|raw]|]; try reflexivity.
      now destruct (Hnone token). }
    split; [apply Hall|exact Hall].
  - intros token claims Hauth Hverify Hrole.
    assert (Hall : forall h : Handler,
      route [authenticateToken; authorizeRoles ["admin"]] h env req w
      = (Ok (mkResponse 403 (BodyAuth AuthForbidden)), w)).
    { intros h. cbn [route].
      unfold authenticateToken, authorizeRoles, Token_Verifier, Role_Authorizer.
      rewrite Hauth, Hverify. unfold_js. cbn [req_user identity_role].
      now rewrite (includes_admin _ Hrole). }
    split; [apply Hall|exact Hall].
  - unfold Role_Authorizer. intros H. apply includes_In.
    destruct (includes allowedRoles (identity_role identity));
      [reflexivity|discriminate].
  - unfold Role_Authorizer. intros H. apply includes_In in H. now rewrite H.
Qed.

Lemma categories_delete_gate_witness :
  categoryRoute_delete env0 (mkRequest None None "1" (JObj [])) shop
  = (Ok (mkResponse 401 (BodyAuth AuthInvalid)), shop) /\
  categoryRoute_delete env0 (with_token user_token "1" []) shop
  = (Ok (mkResponse 403 (BodyAuth AuthForbidden)), shop).
Proof.
  split.
  - apply (proj1 (categories_delete_gate env0
                    (mkRequest None None "1" (JObj [])) shop)).
    discriminate.
  - apply (proj1 (proj2 (categories_delete_gate env0
                           (with_token user_token "1" []) shop))
             user_token (jwt_claims user_token)).
    + reflexivity.
    + reflexivity.
    + discriminate.
Defined.

(** C3. The token /user/login issues expires 3600 seconds after its
    issuance, whatever the request and the environment; the Token Verifier,
    holding the same secret, accepts it 59 minutes after issuance, yielding
    the user's id and role, and rejects it 61 minutes after issuance. *)
Theorem token_lives_one_hour {bc : Bcrypt}
    (env : Env) (req : Request) (w w' : World) (u : User) (token : Jwt) :
  login env req w = (Ok (mkResponse 200 (BodyLogin u token)), w') ->
  claim_iat (jwt_claims token) = now env / 1000 /\
  claim_exp (jwt_claims token) = claim_iat (jwt_claims token) + 3600 /\
  forall env',
    SECRET_KEY env' = SECRET_KEY env ->
    (now env' = now env + 59 * 60 * 1000 ->
     Token_Verifier env' (Some (Bearer token))
     = inl (mkIdentity (user_id u) (user_role u))) /\
    (now env' = now env + 61 * 60 * 1000 ->
     Token_Verifier env' (Some (Bearer token)) = inr AuthInvalid).
Proof.
  intros Hlogin.
  assert (exists key,
            SECRET_KEY env = Some key /\ key <> "" /\
            token = mkJwt (mkClaims (user_id u) (user_role u) (now env / 1000)
                                    (now env / 1000 + 3600)) key)
    as (key & Hkey & Hne & ->).
  { revert Hlogin. unfold login, User_findOne. unfold_js. cbn [users].
    unfold jwt_sign. rewrite timespan_1h.
    repeat split_match; intros H; inversion H; subst.
    eexists. split; [reflexivity|]. split; [|reflexivity].
    intros ->. discriminate. }
  cbn [jwt_claims claim_iat claim_exp].
  split; [reflexivity|]. split; [reflexivity|].
  intros env' Hsame. unfold Token_Verifier, jwt_verify.
  rewrite Hsame, Hkey. cbn [jwt_key jwt_claims claim_exp claim_id claim_role].
  rewrite String.eqb_refl. cbn [negb].
  split; intros ->.
  - replace (now env + 59 * 60 * 1000) with (now env + 3540 * 1000) by lia.
    rewrite Z.div_add by lia.
    destruct (Z.leb_spec (now env / 1000 + 3600) (now env / 1000 + 3540));
      [lia|reflexivity].
  - replace (now env + 61 * 60 * 1000) with (now env + 3660 * 1000) by lia.
    rewrite Z.div_add by lia.
    destruct (Z.leb_spec (now env / 1000 + 3600) (now env / 1000 + 3660));
      [reflexivity|lia].
Qed.

Lemma token_lives_one_hour_witness :
  Token_Verifier (at_time env0 (1700000000123 + 59 * 60 * 1000))
    (Some (Bearer (mkJwt (mkClaims 1 (JStr "user") 1700000000 1700003600)
                         "s3cret")))
  = inl (mkIdentity 1 (JStr "user")) /\
  Token_Verifier (at_time env0 (1700000000123 + 61 * 60 * 1000))
    (Some (Bearer (mkJwt (mkClaims 1 (JStr "user") 1700000000 1700003600)
                         "s3cret")))
  = inr AuthInvalid.
Proof.
  destruct (token_lives_one_hour (bc := reference_bcrypt) env0 alice_login
              world_with_alice _ alice _ login_alice) as (_ & _ & H).
  split.
  - apply (proj1 (H (at_time env0 (1700000000123 + 59 * 60 * 1000)) eq_refl)).
    reflexivity.
  - apply (proj2 (H (at_time env0 (1700000000123 + 61 * 60 * 1000)) eq_refl)).
    reflexivity.
Defined.

(** A request with a valid admin token passes both middlewares of the gate
    and reaches the handler with the identity attached. *)
Lemma admin_passes_gate (h : Handler) env req w token claims :
  authorization req = Some (Bearer token) ->
  jwt_verify token (SECRET_KEY env) (now env) = Ok claims ->
  claim_role claims = JStr "admin" ->
  route [authenticateToken; authorizeRoles ["admin"]] h env req w
  = h env (mkRequest (authorization req)
                     (Some (mkIdentity (claim_id claims) (claim_role claims)))
                     (params_id req) (req_body req)) w.
Proof.
  intros Hauth Hverify Hrole. cbn [route].
  unfold authenticateToken, authorizeRoles, Token_Verifier, Role_Authorizer.
  rewrite Hauth, Hverify. unfold_js. cbn [req_user identity_role].
  rewrite Hrole. cbn [includes existsb]. rewrite String.eqb_refl.
  cbn [orb]. now destruct (h env _ w) as [[r|e] w'].
Qed.

(** The array Product.update resolves to has no property "updated". *)
Lemma update_result_has_no_updated env name description price categoryId id
    w result w' :
  Product_update env name description price categoryId id w = (Ok result, w') ->
  get_prop result "updated" = JUndefined.
Proof.
  unfold Product_update. unfold_js.
  destruct (fault env Product_update_op); [discriminate|].
  intros H. inversion H; subst. reflexivity.
Qed.

(** C9. Behind the gate, PATCH /products/:id answers 200 "Product updated
    successfully" whenever Product.update does not throw: the [updated]
    taken from its result is undefined, Product.findOne is never called, and
    no answer of the route has status 404, whichever id is asked for. *)
Theorem products_patch_reports_success
    (env : Env) (req : Request) (w : World) :
  (fault env Product_update_op = None ->
   exists w',
     products_patch_handler env req w
     = (Ok (mkResponse 200 (BodyMessage "Product updated successfully")), w') /\
     orm_calls w' = Product_update_op :: orm_calls w) /\
  (forall token claims,
     authorization req = Some (Bearer token) ->
     jwt_verify token (SECRET_KEY env) (now env) = Ok claims ->
     claim_role claims = JStr "admin" ->
     fault env Product_update_op = None ->
     exists w',
       productRoute_patch env req w
       = (Ok (mkResponse 200 (BodyMessage "Product updated successfully")), w') /\
       orm_calls w' = Product_update_op :: orm_calls w) /\
  (forall name description price categoryId id w0 result w1,
     Product_update env name description price categoryId id w0
     = (Ok result, w1) ->
     get_prop result "updated" = JUndefined) /\
  (forall r w', productRoute_patch env req w = (Ok r, w') -> status r <> 404).
Proof.
  assert (Hhandler : forall req0,
    fault env Product_update_op = None ->
    exists w',
      products_patch_handler env req0 w
      = (Ok (mkResponse 200 (BodyMessage "Product updated successfully")), w') /\
      orm_calls w' = Product_update_op :: orm_calls w).
  { intros req0 Hup. unfold products_patch_handler, Product_update. unfold_js.
    rewrite Hup. cbn [get_prop]. eexists. split; reflexivity. }
  split; [apply Hhandler|]. split; [|split].
  - intros token claims Hauth Hverify Hrole Hup.
    unfold productRoute_patch.
    rewrite (admin_passes_gate _ _ _ _ _ _ Hauth Hverify Hrole).
    apply Hhandler, Hup.
  - intros. eapply update_result_has_no_updated; eassumption.
  - intros r w'. unfold productRoute_patch. cbn [route].
    unfold authenticateToken, authorizeRoles, products_patch_handler,
      Product_update, Product_findOne.
    unfold_js. cbn [req_user].
    repeat split_match; intros H; inversion H; subst; cbn [status];
      discriminate.
Qed.

Lemma products_patch_reports_success_witness :
  exists w',
    productRoute_patch env0
      (with_token admin_token "99" [("name", JStr "Ball")]) shop
    = (Ok (mkResponse 200 (BodyMessage "Product updated successfully")), w') /\
    orm_calls w' = Product_update_op :: orm_calls shop.
Proof.
  apply (proj1 (proj2 (products_patch_reports_success env0
                         (with_token admin_token "99" [("name", JStr "Ball")])
                         shop))
           admin_token (jwt_claims admin_token));
    reflexivity.
Defined.

(** C10. For a request with a valid admin token, GET /categories answers
    404 "No categories found" when the categories table is empty, and 200
    with all its rows when it is not. *)
Theorem categories_get_lists
    (env : Env) (req : Request) (w : World) (token : Jwt) (claims : Claims) :
  authorization req = Some (Bearer token) ->
  jwt_verify token (SECRET_KEY env) (now env) = Ok claims ->
  claim_role claims = JStr "admin" ->
  fault env Category_findAll_op = None ->
  (categories w = [] ->
   fst (categoryRoute_get env req w)
   = Ok (mkResponse 404 (BodyMessage "No categories found"))) /\
  (categories w <> [] ->
   fst (categoryRoute_get env req w)
   = Ok (mkResponse 200 (BodyCategories (categories w)))).
Proof.
  intros Hauth Hverify Hrole Hup. unfold categoryRoute_get.
  rewrite (admin_passes_gate _ _ _ _ _ _ Hauth Hverify Hrole).
  unfold categories_get_handler, Category_findAll. unfold_js.
  rewrite Hup. cbn [categories].
  split.
  - intros ->. reflexivity.
  - intros Hne. destruct (categories w) as [|c cs]; [contradiction|].
    cbn [List.length truthy]. rewrite Nat2Z.inj_succ.
    destruct (Z.eqb_spec (Z.succ (Z.of_nat (List.length cs))) 0); [lia|].
    reflexivity.
Qed.

Lemma categories_get_lists_witness :
  fst (categoryRoute_get env0 (with_token admin_token "" []) shop)
  = Ok (mkResponse 200
          (BodyCategories [mkCategory 1 (JStr "Cricket");
                           mkCategory 2 (JStr "Football")])) /\
  fst (categoryRoute_get env0 (with_token admin_token "" []) world_with_alice)
  = Ok (mkResponse 404 (BodyMessage "No categories found")).
Proof.
  split.
  - apply (proj2 (categories_get_lists env0 (with_token admin_token "" []) shop
                    admin_token (jwt_claims admin_token)
                    eq_refl eq_refl eq_refl eq_refl)).
    discriminate.
  - apply (proj1 (categories_get_lists env0 (with_token admin_token "" [])
                    world_with_alice admin_token (jwt_claims admin_token)
                    eq_refl eq_refl eq_refl eq_refl)).
    reflexivity.
Defined.

(** * Further properties of the routes *)

Section Keeping.
Context (R : World -> World -> Prop) `{!Frame R}.

Lemma keeps_ret {A} (a : A) : keeps R (ret a).
Proof. intros w. apply frame_refl. Qed.

Lemma keeps_throw {A} e : keeps R (@throw A e).
Proof. intros w. apply frame_refl. Qed.

Lemma keeps_lift {A} (r : Result A) : keeps R (lift r).
Proof. intros w. apply frame_refl. Qed.

Lemma keeps_console_log u : keeps R (console_log u).
Proof. intros w. apply frame_console. Qed.

Lemma keeps_bind {A B} (m : M A) (k : A -> M B) :
  keeps R m -> (forall a, keeps R (k a)) -> keeps R (bind m k).
Proof.
  intros Hm Hk w. unfold bind. specialize (Hm w).
  destruct (m w) as [[a|e] w1]; simpl in *; [|exact Hm].
  eapply frame_trans; [exact Hm|apply Hk].
Qed.

Lemma keeps_try_catch {A} (m : M A) (h : JsError -> M A) :
  keeps R m -> (forall e, keeps R (h e)) -> keeps R (try_catch m h).
Proof.
  intros Hm Hh w. unfold try_catch. specialize (Hm w).
  destruct (m w) as [[a|e] w1]; simpl in *; [exact Hm|].
  eapply frame_trans; [exact Hm|apply Hh].
Qed.

Lemma keeps_orm_call {A} env op (query : World -> A * World) :
  (forall w, R w (snd (query w))) -> keeps R (orm_call env op query).
Proof.
  intros Hq w. unfold orm_call.
  destruct (fault env op); simpl; [apply frame_record|].
  specialize (Hq (record_call op w)).
  destruct (query (record_call op w)) as [a w2]; simpl in *.
  eapply frame_trans; [apply frame_record|exact Hq].
Qed.

Lemma keeps_store_call {A} rejects op (query : World -> A * World) :
  (forall w, R w (snd (query w))) -> keeps R (store_call rejects op query).
Proof.
  intros Hq w. unfold store_call.
  destruct (rejects op); simpl; [apply frame_refl|].
  specialize (Hq w). now destruct (query w) as [a w2].
Qed.

Lemma keeps_route mws (h : Handler) :
  Forall (fun mw : Middleware => forall env req, keeps R (mw env req)) mws ->
  (forall env req, keeps R (h env req)) ->
  forall env req, keeps R (route mws h env req).
Proof.
  intros Hmws Hh. induction Hmws as [|mw rest Hmw _ IH]; intros env req; simpl.
  - apply Hh.
  - apply keeps_bind; [apply Hmw|].
    intros [req'|res]; [apply IH|apply keeps_ret].
Qed.

Lemma keeps_route_rich mws (h : Responder) :
  Forall (fun mw : Middleware => forall env req, keeps R (mw env req)) mws ->
  (forall env req, keeps R (h env req)) ->
  forall env req, keeps R (route_rich mws h env req).
Proof.
  intros Hmws Hh. induction Hmws as [|mw rest Hmw _ IH]; intros env req; simpl.
  - apply Hh.
  - apply keeps_bind; [apply Hmw|].
    intros [req'|res]; [apply IH|apply keeps_ret].
Qed.

Lemma keeps_authenticateToken env req : keeps R (authenticateToken env req).
Proof.
  unfold authenticateToken.
  destruct (Token_Verifier env (authorization req)); apply keeps_ret.
Qed.

Lemma keeps_authorizeRoles allowedRoles env req :
  keeps R (authorizeRoles allowedRoles env req).
Proof.
  unfold authorizeRoles. destruct (req_user req) as [identity|].
  - destruct (Role_Authorizer identity allowedRoles); apply keeps_ret.
  - apply keeps_throw.
Qed.

Lemma keeps_plainly (h : Handler) env req :
  keeps R (h env req) -> keeps R (plainly h env req).
Proof. intros H. apply keeps_bind; [exact H|]. intros a. apply keeps_ret. Qed.

End Keeping.

#[local] Instance same_users_frame : Frame same_users.
Proof. split; unfold same_users; simpl; congruence. Qed.

#[local] Instance same_categories_frame : Frame same_categories.
Proof. split; unfold same_categories; simpl; congruence. Qed.

#[local] Instance same_products_frame : Frame same_products.
Proof. split; unfold same_products; simpl; congruence. Qed.

Ltac unfold_routes :=
  unfold categoryRoute_get, categoryRoute_delete, productRoute_patch,
    categoryRoute_patch, productRoute_get_one, productRoute_delete,
    categoryRoute_get_one, categoryRoute_post, productRoute_get,
    productRoute_post.

Ltac unfold_handlers :=
  unfold register, login, categories_get_handler, categories_delete_handler,
    products_patch_handler, categories_patch_handler,
    products_get_one_handler, products_delete_handler,
    categories_get_one_handler, categories_post_handler,
    products_get_handler, products_post_handler,
    User_findOne, User_create, Category_findAll, Category_destroy,
    Product_update, Product_findOne, Category_findOne, Category_create,
    Category_update, Product_findAll, Product_create, Product_destroy.

Ltac keeps_query :=
  intros ?; unfold same_users, same_categories, same_products; simpl;
  try (destruct (find _ _); simpl); reflexivity.

Ltac keeps_step :=
  first [ apply keeps_ret; typeclasses eauto
        | apply keeps_throw; typeclasses eauto
        | apply keeps_lift; typeclasses eauto
        | apply keeps_console_log; typeclasses eauto
        | apply keeps_plainly; [typeclasses eauto|]
        | apply keeps_route;
          [typeclasses eauto
          |repeat constructor; intros ? ?;
           first [apply keeps_authenticateToken|apply keeps_authorizeRoles];
           typeclasses eauto
          |intros ? ?]
        | apply keeps_route_rich;
          [typeclasses eauto
          |repeat constructor; intros ? ?;
           first [apply keeps_authenticateToken|apply keeps_authorizeRoles];
           typeclasses eauto
          |intros ? ?]
        | apply keeps_bind; [typeclasses eauto| |intros ?]
        | apply keeps_try_catch; [typeclasses eauto| |intros ?]
        | apply keeps_orm_call; [typeclasses eauto|keeps_query]
        | apply keeps_store_call; [typeclasses eauto|keeps_query]
        | match goal with
          | |- keeps _ (match ?x with _ => _ end) => destruct x
          end ].

Ltac keeps_route_tac :=
  simpl; unfold_routes; repeat keeps_step; unfold_handlers; repeat keeps_step.

Lemma respond_keeps_users {bc : Bcrypt} rejects r env req :
  r <> Mounted POST_user_register ->
  keeps same_users (respond rejects r env req).
Proof.
  destruct r as [[]| | | | | | |]; intros Hr; try contradiction;
    keeps_route_tac.
Qed.

Lemma respond_keeps_categories {bc : Bcrypt} rejects r env req :
  r <> Mounted DELETE_categories_id -> r <> POST_categories ->
  r <> PATCH_categories_id ->
  keeps same_categories (respond rejects r env req).
Proof.
  destruct r as [[]| | | | | | |]; intros H1 H2 H3; try contradiction;
    keeps_route_tac.
Qed.

Lemma respond_keeps_products {bc : Bcrypt} rejects r env req :
  r <> Mounted PATCH_products_id -> r <> POST_products ->
  r <> DELETE_products_id ->
  keeps same_products (respond rejects r env req).
Proof.
  destruct r as [[]| | | | | | |]; intros H1 H2 H3; try contradiction;
    keeps_route_tac.
Qed.

(** X1. Each route changes at most its own table: only /user/register
    can change the users table, only POST, PATCH and DELETE on /categories the
    categories table, and only POST, PATCH and DELETE on /products the
    products table, whatever the request and however it is answered. *)
Theorem routes_keep_other_tables {bc : Bcrypt}
    (rejects : Rejects) (r : Route) (env : Env) (req : Request) (w : World) :
  (r <> Mounted POST_user_register ->
   users (snd (respond rejects r env req w)) = users w) /\
  (r <> Mounted DELETE_categories_id -> r <> POST_categories ->
   r <> PATCH_categories_id ->
   categories (snd (respond rejects r env req w)) = categories w) /\
  (r <> Mounted PATCH_products_id -> r <> POST_products ->
   r <> DELETE_products_id ->
   products (snd (respond rejects r env req w)) = products w).
Proof.
  split; [|split].
  - intros H. now apply respond_keeps_users.
  - intros H1 H2 H3. now apply respond_keeps_categories.
  - intros H1 H2 H3. now apply respond_keeps_products.
Qed.

Lemma routes_keep_other_tables_witness :
  users (snd (respond (bc := reference_bcrypt) accepts_all
                (Mounted DELETE_categories_id) env0
                (with_token admin_token "1" []) shop)) = users shop /\
  products (snd (respond (bc := reference_bcrypt) accepts_all
                   (Mounted DELETE_categories_id) env0
                   (with_token admin_token "1" []) shop)) = products shop.
Proof.
  destruct (routes_keep_other_tables (bc := reference_bcrypt) accepts_all
              (Mounted DELETE_categories_id) env0
              (with_token admin_token "1" []) shop) as (Hu & _ & Hp).
  split; [apply Hu|apply Hp]; discriminate.
Defined.

(** The users table after /user/register: as before, or with one row
    appended whose email no earlier row matched. *)
Lemma register_users {bc : Bcrypt} env req w :
  users (snd (register env req w)) = users w \/
  exists u,
    users (snd (register env req w)) = (users w ++ [u])%list /\
    user_email u = get_prop (req_body req) "email" /\
    find (fun x => sql_eq (user_email x) (get_prop (req_body req) "email"))
         (users w) = None.
Proof.
  unfold register, User_findOne, User_create. unfold_js. cbn [users].
  destruct (fault env User_findOne_op); [now left|].
  destruct (find _ (users w)) eqn:Hfind; [now left|].
  destruct (bcrypt_hash _ 10 (salt env)); [|now left].
  destruct (fault env User_create_op); [now left|].
  right. eexists. simpl. repeat split.
Qed.

Lemma string_emails_app us vs :
  string_emails (us ++ vs) = (string_emails us ++ string_emails vs)%list.
Proof. apply flat_map_app. Qed.

Lemma string_email_absent us email :
  find (fun x => sql_eq (user_email x) (JStr email)) us = None ->
  ~ In email (string_emails us).
Proof.
  intros Hnone Hin. apply in_flat_map in Hin as (x & Hx & Hin).
  pose proof (find_none _ _ Hnone x Hx) as Hneq. simpl in Hneq.
  destruct (user_email x); simpl in Hin; try contradiction.
  destruct Hin as [->|[]]. simpl in Hneq. now rewrite String.eqb_refl in Hneq.
Qed.

Lemma respond_emails_unique {bc : Bcrypt} rejects r env req w :
  NoDup (string_emails (users w)) ->
  NoDup (string_emails (users (snd (respond rejects r env req w)))).
Proof.
  intros Hw.
  assert (Hreg : NoDup (string_emails (users (snd (register env req w))))).
  { destruct (register_users env req w) as [->|(u & -> & Hu & Hnone)];
      [exact Hw|].
    rewrite string_emails_app. unfold string_emails at 2. simpl.
    rewrite Hu in *. destruct (get_prop (req_body req) "email");
      rewrite ?app_nil_r; try exact Hw.
    apply NoDup_app; [exact Hw|repeat constructor; intros []|].
    intros e He [<-|[]]. revert He. now apply string_email_absent. }
  destruct r as [[]| | | | | | |];
    try (rewrite (respond_keeps_users rejects _ env req); [exact Hw|discriminate]).
  simpl. unfold plainly, bind, ret.
  destruct (register env req w) as [[res|e] w']; exact Hreg.
Qed.

(** X2. No two users ever share a string email: if the users table has
    no duplicate among its string emails, it has none after any sequence of
    requests to any of the routes, whatever the database rejects meanwhile. *)
Theorem emails_stay_unique {bc : Bcrypt} (calls : list Call) (w : World) :
  NoDup (string_emails (users w)) ->
  NoDup (string_emails (users (serve_all calls w))).
Proof.
  revert w. induction calls as [|[[[r rejects] env] req] rest IH];
    intros w Hw; simpl; [exact Hw|].
  apply IH. now apply respond_emails_unique.
Qed.

Lemma emails_stay_unique_witness :
  NoDup (string_emails (users
    (serve_all (bc := reference_bcrypt)
       [(Mounted POST_user_register, accepts_all, env0, alice_registration);
        (Mounted POST_user_register, accepts_all, env0,
         post [("name", JStr "B"); ("email", JStr "b@x.com");
               ("password", JStr "pw2")]);
        (Mounted POST_user_register, accepts_all, env0, alice_registration)]
       world_with_alice))).
Proof.
  apply (emails_stay_unique (bc := reference_bcrypt)).
  simpl. repeat constructor; simpl; intuition.
Defined.

(** X3. /user/login contains every error: for every request, environment
    and store it sends a response, with status 200, 401 or 500; it asks the
    ORM for the lookup and nothing else, and leaves the three tables as they
    were. *)
Theorem login_answers_and_reads_only {bc : Bcrypt}
    (env : Env) (req : Request) (w : World) :
  exists r w',
    login env req w = (Ok r, w') /\
    (status r = 200 \/ status r = 401 \/ status r = 500) /\
    orm_calls w' = User_findOne_op :: orm_calls w /\
    users w' = users w /\ categories w' = categories w /\
    products w' = products w.
Proof.
  unfold login, User_findOne. unfold_js. cbn [users].
  repeat split_match; eexists; eexists; (split; [reflexivity|]); simpl; auto.
Qed.

(** X4. The promise of the /user/register handler rejects, so that no
    response is sent, in exactly two cases: the lookup by email is rejected
    by the database, or nobody has the email and bcrypt.hash rejects. A
    failure of User.create never leaves the handler. *)
Theorem register_rejects_iff {bc : Bcrypt}
    (env : Env) (req : Request) (w : World) (e : JsError) :
  fst (register env req w) = Err e <->
  fault env User_findOne_op = Some e \/
  (fault env User_findOne_op = None /\
   find (fun x => sql_eq (user_email x) (get_prop (req_body req) "email"))
        (users w) = None /\
   bcrypt_hash (get_prop (req_body req) "password") 10 (salt env) = Err e).
Proof.
  unfold register, User_findOne, User_create. unfold_js. cbn [users].
  destruct (fault env User_findOne_op) as [e0|]; simpl.
  - split; [intros H; left; congruence|].
    intros [H|(H & _)]; congruence.
  - destruct (find _ (users w)); simpl.
    + split; [discriminate|]. intros [H|(_ & H & _)]; discriminate.
    + destruct (bcrypt_hash _ 10 (salt env)) as [hashed|e0]; simpl.
      * destruct (fault env User_create_op); simpl;
          (split; [discriminate|]); intros [H|(_ & _ & H)]; discriminate.
      * split; [intros H; right; repeat split; congruence|].
        intros [H|(_ & _ & H)]; congruence.
Qed.

(** X5. Every route other than /user/register sends a response to every
    request: whatever the token, the body, the store and the calls the
    database rejects, no error leaves its middlewares and handler. *)
Theorem routes_always_answer {bc : Bcrypt}
    (rejects : Rejects) (r : Route) (env : Env) (req : Request) (w : World) :
  r <> Mounted POST_user_register ->
  exists a, fst (respond rejects r env req w) = Ok a.
Proof.
  destruct r as [[]| | | | | | |]; intros Hr; try contradiction;
    simpl; unfold_routes; unfold plainly; cbn [route route_rich];
    unfold authenticateToken, authorizeRoles; unfold_handlers;
    unfold store_call; unfold_js; simpl;
    repeat (split_match; simpl); eexists; reflexivity.
Qed.

Lemma routes_always_answer_witness :
  exists a,
    fst (respond (bc := reference_bcrypt)
           (rejecting Product_destroy_op connection_refused)
           DELETE_products_id env0 (with_token admin_token "1" []) shop)
    = Ok a.
Proof.
  apply (routes_always_answer (bc := reference_bcrypt)).
  discriminate.
Defined.

(** The 200 of /user/login, with the token and the world it leaves. *)
Lemma login_ok {bc : Bcrypt} env req w u key :
  fault env User_findOne_op = None ->
  find (fun x => sql_eq (user_email x) (get_prop (req_body req) "email"))
       (users w) = Some u ->
  bcrypt_compare (get_prop (req_body req) "password")
                 (JStr (user_password u)) = Ok true ->
  SECRET_KEY env = Some key ->
  key <> "" ->
  fst (login env req w)
  = Ok (mkResponse 200
          (BodyLogin u (mkJwt (mkClaims (user_id u) (user_role u)
                                        (now env / 1000)
                                        (now env / 1000 + 3600)) key))).
Proof.
  intros Hup Hfind Hcmp Hkey Hne.
  unfold login, User_findOne. unfold_js. cbn [users].
  now rewrite Hup, Hfind, Hcmp, Hkey, (jwt_sign_1h _ _ _ _ Hne).
Qed.

(** X6. Whenever the lookup of /user/login is answered, the handler
    prints what it found to the console before it checks the password: the
    whole user row, password hash included, or null. *)
Theorem login_prints_row {bc : Bcrypt}
    (env : Env) (req : Request) (w : World) :
  fault env User_findOne_op = None ->
  console (snd (login env req w))
  = find (fun x => sql_eq (user_email x) (get_prop (req_body req) "email"))
         (users w) :: console w.
Proof.
  intros Hup. unfold login, User_findOne. unfold_js. cbn [users].
  rewrite Hup. repeat split_match; reflexivity.
Qed.

Lemma login_prints_row_witness :
  console (snd (login (bc := reference_bcrypt) env0
                  (post [("email", JStr "a@x.com"); ("password", JStr "wrong")])
                  world_with_alice))
  = [Some alice].
Proof.
  apply (login_prints_row (bc := reference_bcrypt) env0
           (post [("email", JStr "a@x.com"); ("password", JStr "wrong")])
           world_with_alice).
  reflexivity.
Defined.

(** X7. /user/login answers 200 only with {user, token} for a stored row
    that the submitted email matches and whose stored hash bcrypt.compare
    accepted for the submitted password; the token is signed with
    SECRET_KEY, carries that row's id and role, and expires 3600 seconds
    after it was issued. *)
Theorem login_200_only_with_valid_password {bc : Bcrypt}
    (env : Env) (req : Request) (w w' : World) (r : Response) :
  login env req w = (Ok r, w') ->
  status r = 200 ->
  exists u token,
    body r = BodyLogin u token /\
    In u (users w) /\
    sql_eq (user_email u) (get_prop (req_body req) "email") = true /\
    bcrypt_compare (get_prop (req_body req) "password")
                   (JStr (user_password u)) = Ok true /\
    SECRET_KEY env = Some (jwt_key token) /\
    jwt_claims token = mkClaims (user_id u) (user_role u) (now env / 1000)
                                (now env / 1000 + 3600).
Proof.
  unfold login, User_findOne. unfold_js. cbn [users].
  unfold jwt_sign. rewrite timespan_1h.
  destruct (fault env User_findOne_op);
    [intros H; inversion H; subst; discriminate|].
  destruct (find _ (users w)) as [u|] eqn:Hfind;
    [|intros H; inversion H; subst; discriminate].
  destruct (bcrypt_compare _ _) as [[|]|] eqn:Hcmp;
    try (intros H; inversion H; subst; discriminate).
  destruct (SECRET_KEY env) as [key|];
    [|intros H; inversion H; subst; discriminate].
  destruct (key =? "")%string;
    intros H; inversion H; subst; try discriminate.
  intros _. apply find_some in Hfind as [Hin Heq].
  eexists. eexists. simpl. repeat split; eauto.
Qed.

Lemma login_200_only_with_valid_password_witness :
  exists u token,
    BodyLogin alice
      (mkJwt (mkClaims 1 (JStr "user") 1700000000 1700003600) "s3cret")
    = BodyLogin u token /\
    In u (users world_with_alice) /\
    sql_eq (user_email u) (get_prop (req_body alice_login) "email") = true /\
    bcrypt_compare (Bcrypt := reference_bcrypt)
      (get_prop (req_body alice_login) "password")
      (JStr (user_password u)) = Ok true /\
    SECRET_KEY env0 = Some (jwt_key token) /\
    jwt_claims token = mkClaims (user_id u) (user_role u) (now env0 / 1000)
                                (now env0 / 1000 + 3600).
Proof.
  apply (login_200_only_with_valid_password (bc := reference_bcrypt) env0
           alice_login world_with_alice _ _ login_alice).
  reflexivity.
Defined.

(** X8. With SECRET_KEY unset or empty, /user/login never answers 200, and a
    login with the right password is answered 500 with an empty error
    object: the error jwt.sign throws has no enumerable property. *)
Theorem login_without_secret {bc : Bcrypt}
    (env : Env) (req : Request) (w : World) :
  SECRET_KEY env = None \/ SECRET_KEY env = Some "" ->
  (forall r, fst (login env req w) = Ok r -> status r <> 200) /\
  (forall u,
     fault env User_findOne_op = None ->
     find (fun x => sql_eq (user_email x) (get_prop (req_body req) "email"))
          (users w) = Some u ->
     bcrypt_compare (get_prop (req_body req) "password")
                    (JStr (user_password u)) = Ok true ->
     fst (login env req w) = Ok (mkResponse 500 (BodyErr (JObj [])))).
Proof.
  intros Hkey.
  assert (Hsign : forall id role,
            jwt_sign id role (SECRET_KEY env) "1h" (now env)
            = Err (Error "secretOrPrivateKey must have a value")).
  { intros id role. now destruct Hkey as [-> | ->]. }
  split.
  - intros r. unfold login, User_findOne. unfold_js. cbn [users].
    repeat split_match; intros H; inversion H; subst; simpl;
      try discriminate.
    rewrite Hsign in *. discriminate.
  - intros u Hup Hfind Hcmp. unfold login, User_findOne. unfold_js.
    cbn [users]. now rewrite Hup, Hfind, Hcmp, Hsign.
Qed.

Lemma login_without_secret_witness :
  fst (login (bc := reference_bcrypt)
         (mkEnv None 1700000000123 "N9qo8uLOickgx2ZMRZoMye" no_fault)
         alice_login world_with_alice)
  = Ok (mkResponse 500 (BodyErr (JObj []))).
Proof.
  apply (proj2 (login_without_secret (bc := reference_bcrypt)
                  (mkEnv None 1700000000123 "N9qo8uLOickgx2ZMRZoMye" no_fault)
                  alice_login world_with_alice (or_introl eq_refl)) alice);
    reflexivity.
Defined.

Lemma respond_users_grow {bc : Bcrypt} rejects r env req w :
  exists extra,
    users (snd (respond rejects r env req w)) = (users w ++ extra)%list.
Proof.
  destruct r as [[]| | | | | | |];
    try (exists []; rewrite app_nil_r;
         apply (respond_keeps_users rejects _ env req); discriminate).
  simpl. unfold plainly, bind, ret.
  destruct (register_users env req w) as [H|(u & H & _)];
    destruct (register env req w) as [[res|e] w']; simpl in *; rewrite H.
  1,2: exists []; now rewrite app_nil_r.
  1,2: now exists [u].
Qed.

Lemma serve_all_users {bc : Bcrypt} calls : forall w,
  exists extra, users (serve_all calls w) = (users w ++ extra)%list.
Proof.
  induction calls as [|[[[r rejects] env] req] rest IH]; intros w; simpl.
  - exists []. now rewrite app_nil_r.
  - destruct (IH (snd (respond rejects r env req w))) as [extra2 H2].
    destruct (respond_users_grow rejects r env req w) as [extra1 H1].
    exists (extra1 ++ extra2)%list. now rewrite H2, H1, app_assoc.
Qed.

(** The gate lets a token through when its signature is by the secret, its
    expiry lies ahead and its role is "admin". *)
Lemma admin_token_passes (h : Handler) env req w token key :
  authorization req = Some (Bearer token) ->
  SECRET_KEY env = Some key ->
  jwt_key token = key ->
  now env / 1000 < claim_exp (jwt_claims token) ->
  claim_role (jwt_claims token) = JStr "admin" ->
  route [authenticateToken; authorizeRoles ["admin"]] h env req w
  = h env (mkRequest (authorization req)
                     (Some (mkIdentity (claim_id (jwt_claims token))
                                       (claim_role (jwt_claims token))))
                     (params_id req) (req_body req)) w.
Proof.
  intros Hauth Hkey Hsig Hexp Hrole.
  apply admin_passes_gate with (token := token); [exact Hauth| |exact Hrole].
  unfold jwt_verify. rewrite Hkey, Hsig, String.eqb_refl. cbn [negb].
  destruct (Z.leb_spec (claim_exp (jwt_claims token)) (now env / 1000));
    [lia|reflexivity].
Qed.

(** X9. The role is whatever the registration request says: a client that
    registers with role "admin" and then logs in, after any requests in
    between, receives a token with role "admin"; until it expires, the gate
    of the admin routes, holding the same secret, hands every request
    bearing it to the handler with the client's id attached. *)
Theorem registered_admin_passes_gate {bc : Bcrypt}
    (env1 env2 : Env) (reg req : Request) (w1 w2 : World) (u : User)
    (calls : list Call) (email password key : string) :
  bcrypt_sound bc ->
  get_prop (req_body reg) "email" = JStr email ->
  get_prop (req_body reg) "password" = JStr password ->
  get_prop (req_body reg) "role" = JStr "admin" ->
  register env1 reg w1 = (Ok (mkResponse 201 (BodyUser u)), w2) ->
  get_prop (req_body req) "email" = JStr email ->
  get_prop (req_body req) "password" = JStr password ->
  fault env2 User_findOne_op = None ->
  SECRET_KEY env2 = Some key ->
  key <> "" ->
  exists token,
    fst (login env2 req (serve_all calls w2))
    = Ok (mkResponse 200 (BodyLogin u token)) /\
    claim_role (jwt_claims token) = JStr "admin" /\
    forall (h : Handler) env3 req3 w3,
      SECRET_KEY env3 = Some key ->
      now env3 / 1000 < now env2 / 1000 + 3600 ->
      authorization req3 = Some (Bearer token) ->
      route [authenticateToken; authorizeRoles ["admin"]] h env3 req3 w3
      = h env3 (mkRequest (authorization req3)
                          (Some (mkIdentity (user_id u) (JStr "admin")))
                          (params_id req3) (req_body req3)) w3.
Proof.
  intros Hbc Eemail Epw Erole Hreg Eemail' Epw' Hup Hkey Hne.
  destruct (register_created _ _ _ _ _ Hreg)
    as (hashed & Hnone & Hhash & Hu & Hw2).
  rewrite Eemail in Hnone, Hu. rewrite Epw in Hhash. rewrite Erole in Hu.
  assert (Hfind : find (fun x => sql_eq (user_email x) (JStr email))
                       (users (serve_all calls w2)) = Some u).
  { destruct (serve_all_users calls w2) as [extra ->].
    apply find_app_some. rewrite Hw2, find_app_none by exact Hnone.
    simpl. rewrite Hu at 1. simpl. now rewrite String.eqb_refl. }
  apply Hbc in Hhash.
  assert (Epass : user_password u = hashed) by (rewrite Hu; reflexivity).
  assert (Eurole : user_role u = JStr "admin") by (rewrite Hu; reflexivity).
  eexists. split; [|split].
  - apply login_ok with (key := key); rewrite ?Eemail', ?Epw', ?Epass; auto.
  - exact Eurole.
  - intros h env3 req3 w3 Hkey3 Hfresh Hauth.
    rewrite (admin_token_passes h env3 req3 w3 _ key Hauth Hkey3 eq_refl);
      [now rewrite <- Eurole|exact Hfresh|exact Eurole].
Qed.

Lemma registered_admin_passes_gate_witness :
  exists token,
    fst (login (bc := reference_bcrypt) (at_time env0 1700000900000)
           (post [("email", JStr "m@x.com"); ("password", JStr "pw")])
           (serve_all (bc := reference_bcrypt)
              [(Mounted POST_user_login, accepts_all, env0, alice_login)]
              (snd (register (bc := reference_bcrypt) env0
                      (post [("email", JStr "m@x.com"); ("password", JStr "pw");
                             ("role", JStr "admin")])
                      world_with_alice))))
    = Ok (mkResponse 200
            (BodyLogin (mkUser 2 JUndefined (JStr "m@x.com")
                               "$2b$N9qo8uLOickgx2ZMRZoMye$pw" (JStr "admin"))
                       token)) /\
    claim_role (jwt_claims token) = JStr "admin" /\
    forall (h : Handler) env3 req3 w3,
      SECRET_KEY env3 = Some "s3cret" ->
      now env3 / 1000 < now (at_time env0 1700000900000) / 1000 + 3600 ->
      authorization req3 = Some (Bearer token) ->
      route [authenticateToken; authorizeRoles ["admin"]] h env3 req3 w3
      = h env3 (mkRequest (authorization req3)
                          (Some (mkIdentity 2 (JStr "admin")))
                          (params_id req3) (req_body req3)) w3.
Proof.
  apply (registered_admin_passes_gate (bc := reference_bcrypt) env0
           (at_time env0 1700000900000)
           (post [("email", JStr "m@x.com"); ("password", JStr "pw");
                  ("role", JStr "admin")])
           (post [("email", JStr "m@x.com"); ("password", JStr "pw")])
           world_with_alice
           (snd (register (bc := reference_bcrypt) env0
                   (post [("email", JStr "m@x.com"); ("password", JStr "pw");
                          ("role", JStr "admin")])
                   world_with_alice))
           (mkUser 2 JUndefined (JStr "m@x.com")
                   "$2b$N9qo8uLOickgx2ZMRZoMye$pw" (JStr "admin"))
           [(Mounted POST_user_login, accepts_all, env0, alice_login)]
           "m@x.com" "pw" "s3cret").
  - exact reference_bcrypt_sound.
  - reflexivity.
  - reflexivity.
  - reflexivity.
  - reflexivity.
  - reflexivity.
  - reflexivity.
  - reflexivity.
  - reflexivity.
  - discriminate.
Defined.

Section Deleting.
Context {A : Type} (hit : A -> bool).

Lemma removed_count (l : list A) :
  Z.of_nat (List.length l)
  - Z.of_nat (List.length (filter (fun x => negb (hit x)) l))
  = Z.of_nat (List.length (filter hit l)).
Proof.
  induction l as [|a l IH]; [reflexivity|].
  cbn [filter]. destruct (hit a); cbn [negb List.length];
    rewrite ?Nat2Z.inj_succ; lia.
Qed.

Lemma no_hit_no_row (l : list A) :
  existsb hit l = false <-> List.length (filter hit l) = 0%nat.
Proof.
  induction l as [|a l IH]; [now split|].
  cbn [existsb filter]. destruct (hit a); cbn [orb List.length];
    [split; discriminate|exact IH].
Qed.

Lemma no_hit_filter_id (l : list A) :
  existsb hit l = false -> filter (fun x => negb (hit x)) l = l.
Proof.
  induction l as [|a l IH]; [reflexivity|].
  cbn [existsb filter]. destruct (hit a); cbn [orb negb]; [discriminate|].
  intros H. now rewrite IH.
Qed.

Lemma no_hit_after_filter (l : list A) :
  existsb hit (filter (fun x => negb (hit x)) l) = false.
Proof.
  induction l as [|a l IH]; [reflexivity|].
  cbn [filter]. destruct (hit a) eqn:E; cbn [negb existsb]; [exact IH|].
  now rewrite E.
Qed.

(** [if (!rowsDeleted)] on the count a destroy resolves to. *)
Lemma deleted_none (l : list A) :
  negb (truthy (JNum (Z.of_nat (List.length l)
                      - Z.of_nat (List.length
                                    (filter (fun x => negb (hit x)) l)))))
  = negb (existsb hit l).
Proof.
  rewrite removed_count. cbn [truthy]. f_equal.
  destruct (existsb hit l) eqn:E.
  - destruct (Z.eqb_spec (Z.of_nat (List.length (filter hit l))) 0) as [H|];
      [|reflexivity].
    assert (List.length (filter hit l) = 0%nat) as H0 by lia.
    apply no_hit_no_row in H0. congruence.
  - apply no_hit_no_row in E. now rewrite E.
Qed.

End Deleting.

Section Updating.
Context {A : Type} (hit : A -> bool) (change : A -> A).

Lemma update_no_hit (l : list A) :
  existsb hit l = false -> map (fun x => if hit x then change x else x) l = l.
Proof.
  induction l as [|a l IH]; [reflexivity|].
  cbn [existsb map]. destruct (hit a); cbn [orb]; [discriminate|].
  intros H. now rewrite IH.
Qed.

Lemma update_keeps {B} (key : A -> B) (l : list A) :
  (forall x, key (change x) = key x) ->
  map key (map (fun x => if hit x then change x else x) l) = map key l.
Proof.
  intros Hkey. rewrite map_map. apply map_ext. intros a.
  destruct (hit a); [apply Hkey|reflexivity].
Qed.

Lemma update_others (l : list A) (x : A) :
  In x l -> hit x = false -> In x (map (fun y => if hit y then change y else y) l).
Proof.
  intros Hin Hx. apply in_map_iff. exists x. now rewrite Hx.
Qed.

End Updating.

Lemma assign_defined old new : new <> JUndefined -> assign old new = new.
Proof. now destruct new. Qed.

Lemma find_existsb {A} (f : A -> bool) (l : list A) :
  find f l = None <-> existsb f l = false.
Proof.
  induction l as [|a l IH]; [now split|].
  cbn [find existsb]. destruct (f a); cbn [orb]; [split; discriminate|exact IH].
Qed.

(** What the gate does with a request, by what the Token Verifier makes of
    its Authorization header. *)
Lemma gate_rejects_token (mws : list Middleware) (h : Handler) env req w why :
  Token_Verifier env (authorization req) = inr why ->
  route (authenticateToken :: mws) h env req w
  = (Ok (mkResponse 401 (BodyAuth why)), w).
Proof. intros H. cbn [route]. unfold authenticateToken. now rewrite H. Qed.

Lemma gate_rejects_token_rich (mws : list Middleware) (h : Responder)
    env req w why :
  Token_Verifier env (authorization req) = inr why ->
  route_rich (authenticateToken :: mws) h env req w
  = (Ok (Plain (mkResponse 401 (BodyAuth why))), w).
Proof. intros H. cbn [route_rich]. unfold authenticateToken. now rewrite H. Qed.

Lemma gate_forbids (h : Handler) env req w identity :
  Token_Verifier env (authorization req) = inl identity ->
  identity_role identity <> JStr "admin" ->
  route [authenticateToken; authorizeRoles ["admin"]] h env req w
  = (Ok (mkResponse 403 (BodyAuth AuthForbidden)), w).
Proof.
  intros H Hrole. cbn [route].
  unfold authenticateToken, authorizeRoles, Role_Authorizer.
  rewrite H. unfold_js. cbn [req_user].
  now rewrite (includes_admin _ Hrole).
Qed.

Lemma gate_forbids_rich (h : Responder) env req w identity :
  Token_Verifier env (authorization req) = inl identity ->
  identity_role identity <> JStr "admin" ->
  route_rich [authenticateToken; authorizeRoles ["admin"]] h env req w
  = (Ok (Plain (mkResponse 403 (BodyAuth AuthForbidden))), w).
Proof.
  intros H Hrole. cbn [route_rich].
  unfold authenticateToken, authorizeRoles, Role_Authorizer.
  rewrite H. unfold_js. cbn [req_user].
  now rewrite (includes_admin _ Hrole).
Qed.

Lemma token_passes (h : Handler) env req w identity :
  Token_Verifier env (authorization req) = inl identity ->
  route [authenticateToken] h env req w
  = h env (mkRequest (authorization req) (Some identity)
                     (params_id req) (req_body req)) w.
Proof.
  intros H. cbn [route]. unfold authenticateToken. rewrite H. unfold_js.
  now destruct (h env _ w) as [[r|e] w'].
Qed.

Lemma token_passes_rich (h : Responder) env req w identity :
  Token_Verifier env (authorization req) = inl identity ->
  route_rich [authenticateToken] h env req w
  = h env (mkRequest (authorization req) (Some identity)
                     (params_id req) (req_body req)) w.
Proof.
  intros H. cbn [route_rich]. unfold authenticateToken. rewrite H. unfold_js.
  now destruct (h env _ w) as [[r|e] w'].
Qed.

(** X14. Every route of /categories and /products stands behind the Token
    Verifier, and all of them but GET /products and GET /products/:id behind
    the Role Authorizer for "admin" as well: a request whose token the
    verifier refuses is answered 401, one whose verified role is not "admin"
    is answered 403 on those routes, and in both cases the world is left
    exactly as it was. *)
Theorem routes_are_gated {bc : Bcrypt}
    (rejects : Rejects) (r : Route) (env : Env) (req : Request) (w : World) :
  r <> Mounted POST_user_register ->
  r <> Mounted POST_user_login ->
  (forall why,
     Token_Verifier env (authorization req) = inr why ->
     respond rejects r env req w
     = (Ok (Plain (mkResponse 401 (BodyAuth why))), w)) /\
  (forall identity,
     Token_Verifier env (authorization req) = inl identity ->
     identity_role identity <> JStr "admin" ->
     r <> GET_products ->
     r <> GET_products_id ->
     respond rejects r env req w
     = (Ok (Plain (mkResponse 403 (BodyAuth AuthForbidden))), w)).
Proof.
  intros Hreg Hlogin. split.
  - intros why Hno.
    destruct r as [[]| | | | | | |]; try contradiction; simpl;
      unfold_routes; unfold plainly, bind, ret;
      first [ now rewrite (gate_rejects_token_rich _ _ _ _ _ _ Hno)
            | now rewrite (gate_rejects_token _ _ _ _ _ _ Hno) ].
  - intros identity Hid Hrole Hlist Hone.
    destruct r as [[]| | | | | | |]; try contradiction; simpl;
      unfold_routes; unfold plainly, bind, ret;
      first [ now rewrite (gate_forbids_rich _ _ _ _ _ Hid Hrole)
            | now rewrite (gate_forbids _ _ _ _ _ Hid Hrole) ].
Qed.

Lemma routes_are_gated_witness :
  respond (bc := reference_bcrypt) accepts_all POST_products env0
    (mkRequest None None "" (JObj [("name", JStr "Ball")])) shop
  = (Ok (Plain (mkResponse 401 (BodyAuth AuthInvalid))), shop) /\
  respond (bc := reference_bcrypt) accepts_all POST_categories env0
    (with_token user_token "" [("name", JStr "Rugby")]) shop
  = (Ok (Plain (mkResponse 403 (BodyAuth AuthForbidden))), shop).
Proof.
  split.
  - apply (routes_are_gated (bc := reference_bcrypt) accepts_all POST_products
             env0 (mkRequest None None "" (JObj [("name", JStr "Ball")])) shop);
      [discriminate|discriminate|reflexivity].
  - apply (proj2 (routes_are_gated (bc := reference_bcrypt) accepts_all
                    POST_categories env0
                    (with_token user_token "" [("name", JStr "Rugby")]) shop
                    ltac:(discriminate) ltac:(discriminate))
             (mkIdentity 1 (JStr "user")));
      [reflexivity|discriminate|discriminate|discriminate].
Defined.

Lemma fresh_id_above (ids : list Z) (x : Z) : In x ids -> x < fresh_id ids.
Proof.
  unfold fresh_id. induction ids as [|y ids IH]; [intros []|].
  cbn [fold_right]. intros [->|Hin]; [lia|]. specialize (IH Hin). lia.
Qed.

Lemma sql_id_eq_key (id : Z) (key : string) (n : nat) :
  index_of_key key = Some n -> sql_id_eq id key = (id =? Z.of_nat n).
Proof. intros H. unfold sql_id_eq. now rewrite H. Qed.

(** The key of a fresh id matches no row of the table it is fresh for. *)
Lemma fresh_key_unused {A} (id_of : A -> Z) (l : list A) key n :
  index_of_key key = Some n ->
  Z.of_nat n = fresh_id (map id_of l) ->
  existsb (fun x => sql_id_eq (id_of x) key) l = false.
Proof.
  intros Hkey Hn. destruct (existsb _ l) eqn:E; [|reflexivity].
  apply existsb_exists in E as (x & Hin & Hx).
  rewrite (sql_id_eq_key _ _ _ Hkey) in Hx. apply Z.eqb_eq in Hx.
  pose proof (fresh_id_above (map id_of l) (id_of x) (in_map id_of l x Hin)).
  lia.
Qed.

Lemma filter_app_last {A} (hit : A -> bool) (l : list A) (x : A) :
  existsb hit l = false -> hit x = true ->
  filter (fun y => negb (hit y)) (l ++ [x]) = l.
Proof.
  intros Hl Hx. rewrite filter_app. cbn [filter]. rewrite Hx. cbn [negb].
  rewrite app_nil_r. now apply no_hit_filter_id.
Qed.



(** X17. When Category.create and Category.destroy are not rejected,
    deleting the category that POST /categories has just created, by its id
    in decimal, is answered 200 and leaves the categories table as it was
    before the creation. *)
Theorem category_post_then_delete
    (rejects : Rejects) (env env2 : Env) (req req2 : Request) (w : World)
    (c : Category) (w' : World) (n : nat) :
  categories_post_handler rejects env req w
  = (Ok (Rich 201 (BodyCategory c)), w') ->
  fault env2 Category_destroy_op = None ->
  index_of_key (params_id req2) = Some n ->
  Z.of_nat n = category_id c ->
  fst (categories_delete_handler env2 req2 w')
  = Ok (mkResponse 200 (BodyMessage "Category deleted successfully")) /\
  categories (snd (categories_delete_handler env2 req2 w')) = categories w.
Proof.
  intros Hpost Hup Hkey Hn.
  assert (Hc : c = mkCategory (fresh_id (map category_id (categories w)))
                              (get_prop (req_body req) "name") /\
               categories w' = (categories w ++ [c])%list).
  { revert Hpost.
    unfold categories_post_handler, Category_create, store_call. unfold_js.
    destruct (rejects Category_create_op); [discriminate|].
    intros H. inversion H; subst. now split. }
  destruct Hc as [Hc Hrows].
  assert (Hhit : sql_id_eq (category_id c) (params_id req2) = true).
  { rewrite (sql_id_eq_key _ _ _ Hkey), Hn. apply Z.eqb_refl. }
  assert (Hold : existsb (fun x => sql_id_eq (category_id x) (params_id req2))
                         (categories w) = false).
  { apply fresh_key_unused with (n := n); [exact Hkey|].
    rewrite Hn, Hc. reflexivity. }
  unfold categories_delete_handler, Category_destroy. unfold_js.
  rewrite Hup. cbn [categories fst snd set_categories].
  rewrite (deleted_none (fun x => sql_id_eq (category_id x) (params_id req2))).
  rewrite Hrows, existsb_app, Hold. cbn [existsb orb]. rewrite Hhit.
  cbn [orb negb fst snd categories]. split; [reflexivity|].
  now apply (filter_app_last
               (fun x => sql_id_eq (category_id x) (params_id req2))).
Qed.

Lemma category_post_then_delete_witness :
  fst (categories_delete_handler env0 (with_token admin_token "3" [])
         (snd (categories_post_handler accepts_all env0
                 (with_token admin_token "" [("name", JStr "Rugby")]) shop)))
  = Ok (mkResponse 200 (BodyMessage "Category deleted successfully")) /\
  categories
    (snd (categories_delete_handler env0 (with_token admin_token "3" [])
            (snd (categories_post_handler accepts_all env0
                    (with_token admin_token "" [("name", JStr "Rugby")]) shop))))
  = categories shop.
Proof.
  apply (category_post_then_delete accepts_all env0 env0
           (with_token admin_token "" [("name", JStr "Rugby")])
           (with_token admin_token "3" []) shop
           (mkCategory 3 (JStr "Rugby")) _ 3%nat);
    reflexivity.
Defined.

(** X19. An email, once registered, stays taken: after a 201 for a string
    email and any sequence of requests to any of the routes, the row is still
    in the users table and a further registration of that email, its lookup
    answered, is refused with 400 "User already exists" and adds no row. *)
Theorem registered_email_stays_taken {bc : Bcrypt}
    (env1 env2 : Env) (reg req : Request) (w1 w2 : World) (u : User)
    (calls : list Call) (email : string) :
  get_prop (req_body reg) "email" = JStr email ->
  register env1 reg w1 = (Ok (mkResponse 201 (BodyUser u)), w2) ->
  get_prop (req_body req) "email" = JStr email ->
  fault env2 User_findOne_op = None ->
  In u (users (serve_all calls w2)) /\
  fst (register env2 req (serve_all calls w2))
  = Ok (mkResponse 400 (BodyMessage "User already exists")) /\
  users (snd (register env2 req (serve_all calls w2)))
  = users (serve_all calls w2).
Proof.
  intros Eemail Hreg Eemail' Hup.
  destruct (register_created _ _ _ _ _ Hreg)
    as (hashed & Hnone & _ & Hu & Hw2).
  rewrite Eemail in Hnone, Hu.
  destruct (serve_all_users calls w2) as [extra Hgrow].
  assert (Hfind : find (fun x => sql_eq (user_email x) (JStr email))
                       (users (serve_all calls w2)) = Some u).
  { rewrite Hgrow. apply find_app_some.
    rewrite Hw2, find_app_none by exact Hnone.
    simpl. rewrite Hu at 1. simpl. now rewrite String.eqb_refl. }
  split.
  - rewrite Hgrow, Hw2. apply in_or_app. left. apply in_or_app. right.
    now left.
  - unfold register, User_findOne. unfold_js. cbn [users].
    now rewrite Hup, Eemail', Hfind.
Qed.

Lemma registered_email_stays_taken_witness :
  In alice
     (users (serve_all (bc := reference_bcrypt)
               [(DELETE_products_id, accepts_all, env0,
                 with_token admin_token "1" []);
                (Mounted POST_user_login, accepts_all, env0, alice_login)]
               world_with_alice)) /\
  fst (register (bc := reference_bcrypt) env0
         (post [("email", JStr "a@x.com"); ("password", JStr "other")])
         (serve_all (bc := reference_bcrypt)
            [(DELETE_products_id, accepts_all, env0,
              with_token admin_token "1" []);
             (Mounted POST_user_login, accepts_all, env0, alice_login)]
            world_with_alice))
  = Ok (mkResponse 400 (BodyMessage "User already exists")) /\
  users (snd (register (bc := reference_bcrypt) env0
                (post [("email", JStr "a@x.com"); ("password", JStr "other")])
                (serve_all (bc := reference_bcrypt)
                   [(DELETE_products_id, accepts_all, env0,
                     with_token admin_token "1" []);
                    (Mounted POST_user_login, accepts_all, env0, alice_login)]
                   world_with_alice)))
  = users (serve_all (bc := reference_bcrypt)
             [(DELETE_products_id, accepts_all, env0,
               with_token admin_token "1" []);
              (Mounted POST_user_login, accepts_all, env0, alice_login)]
             world_with_alice).
Proof.
  apply (registered_email_stays_taken (bc := reference_bcrypt) env0 env0
           alice_registration
           (post [("email", JStr "a@x.com"); ("password", JStr "other")])
           empty_world world_with_alice alice _ "a@x.com");
    reflexivity.
Defined.

(** ** Routes addressed by a decimal id *)

Lemma existsb_same {A} (f g : A -> bool) (l : list A) :
  (forall x, f x = g x) -> existsb f l = existsb g l.
Proof.
  intros H. induction l as [|a l IH]; [reflexivity|].
  cbn [existsb]. now rewrite H, IH.
Qed.

Lemma filter_same {A} (f g : A -> bool) (l : list A) :
  (forall x, f x = g x) -> filter f l = filter g l.
Proof.
  intros H. induction l as [|a l IH]; [reflexivity|].
  cbn [filter]. now rewrite H, IH.
Qed.

Lemma find_same {A} (f g : A -> bool) (l : list A) :
  (forall x, f x = g x) -> find f l = find g l.
Proof.
  intros H. induction l as [|a l IH]; [reflexivity|].
  cbn [find]. now rewrite H, IH.
Qed.

Lemma map_same_update {A} (f g : A -> bool) (change : A -> A) (l : list A) :
  (forall x, f x = g x) ->
  map (fun x => if f x then change x else x) l
  = map (fun x => if g x then change x else x) l.
Proof. intros H. apply map_ext. intros a. now rewrite H. Qed.

(** What DELETE /categories/:id does when the id is a decimal numeral and
    Category.destroy is answered. *)
Lemma categories_delete_run env req w n :
  fault env Category_destroy_op = None ->
  index_of_key (params_id req) = Some n ->
  categories_delete_handler env req w
  = (Ok (if existsb (fun c => category_id c =? Z.of_nat n) (categories w)
         then mkResponse 200 (BodyMessage "Category deleted successfully")
         else mkResponse 404 (BodyMessage "Category not found")),
     set_categories
       (filter (fun c => negb (category_id c =? Z.of_nat n)) (categories w))
       (record_call Category_destroy_op w)).
Proof.
  intros Hup Hkey. unfold categories_delete_handler, Category_destroy.
  unfold_js. rewrite Hup. cbn [categories].
  rewrite (deleted_none (fun c => sql_id_eq (category_id c) (params_id req))).
  rewrite (existsb_same _ (fun c => category_id c =? Z.of_nat n))
    by (intros c; now apply sql_id_eq_key).
  rewrite (filter_same _ (fun c => negb (category_id c =? Z.of_nat n)))
    by (intros c; f_equal; now apply sql_id_eq_key).
  now destruct (existsb _ (categories w)).
Qed.

(** X10. For an id given as a decimal numeral and with Category.destroy
    answered, the handler of DELETE /categories/:id answers 404 and leaves
    the table as it was when no row has the id. When some row has it and no
    product refers to that category, it answers 200 and leaves exactly the
    rows with another id, in their order; the same request once more is
    answered 404. *)
Theorem category_delete_removes
    (env : Env) (req : Request) (w : World) (n : nat) :
  fault env Category_destroy_op = None ->
  index_of_key (params_id req) = Some n ->
  (existsb (fun c => category_id c =? Z.of_nat n) (categories w) = false ->
   fst (categories_delete_handler env req w)
   = Ok (mkResponse 404 (BodyMessage "Category not found")) /\
   categories (snd (categories_delete_handler env req w)) = categories w) /\
  (existsb (fun c => category_id c =? Z.of_nat n) (categories w) = true ->
   (forall p, In p (products w) ->
              may_reference (product_categoryId p) (Z.of_nat n) = false) ->
   fst (categories_delete_handler env req w)
   = Ok (mkResponse 200 (BodyMessage "Category deleted successfully")) /\
   categories (snd (categories_delete_handler env req w))
   = filter (fun c => negb (category_id c =? Z.of_nat n)) (categories w) /\
   fst (categories_delete_handler env req
          (snd (categories_delete_handler env req w)))
   = Ok (mkResponse 404 (BodyMessage "Category not found"))).
Proof.
  intros Hup Hkey. split.
  - intros Hnone. rewrite (categories_delete_run _ _ _ n Hup Hkey), Hnone.
    split; [reflexivity|]. cbn [snd set_categories categories].
    now apply (no_hit_filter_id (fun c => category_id c =? Z.of_nat n)).
  - intros Hsome _.
    rewrite (categories_delete_run _ _ w n Hup Hkey), Hsome.
    split; [reflexivity|]. split; [reflexivity|].
    rewrite (categories_delete_run _ _ _ n Hup Hkey).
    cbn [fst snd set_categories categories record_call].
    now rewrite (no_hit_after_filter (fun c => category_id c =? Z.of_nat n)).
Qed.

Lemma category_delete_removes_witness :
  fst (categories_delete_handler env0 (with_token admin_token "2" []) shop)
  = Ok (mkResponse 200 (BodyMessage "Category deleted successfully")) /\
  categories (snd (categories_delete_handler env0
                     (with_token admin_token "2" []) shop))
  = [mkCategory 1 (JStr "Cricket")] /\
  fst (categories_delete_handler env0 (with_token admin_token "7" []) shop)
  = Ok (mkResponse 404 (BodyMessage "Category not found")).
Proof.
  destruct (category_delete_removes env0 (with_token admin_token "2" []) shop
              2%nat eq_refl eq_refl) as [_ Hfound].
  destruct Hfound as (Hres & Hrows & _).
  - reflexivity.
  - intros p [<-|[]]. reflexivity.
  - split; [exact Hres|]. split; [exact Hrows|].
    apply (proj1 (category_delete_removes env0
                    (with_token admin_token "7" []) shop 7%nat
                    eq_refl eq_refl)).
    reflexivity.
Defined.

Lemma products_delete_run rejects env req w n :
  rejects Product_destroy_op = None ->
  index_of_key (params_id req) = Some n ->
  products_delete_handler rejects env req w
  = (Ok (if existsb (fun p => product_id p =? Z.of_nat n) (products w)
         then mkResponse 200 (BodyMessage "Product deleted successfully")
         else mkResponse 404 (BodyMessage "Product not found")),
     set_products
       (filter (fun p => negb (product_id p =? Z.of_nat n)) (products w)) w).
Proof.
  intros Hup Hkey. unfold products_delete_handler, Product_destroy, store_call.
  unfold_js. rewrite Hup.
  rewrite (deleted_none (fun p => sql_id_eq (product_id p) (params_id req))).
  rewrite (existsb_same _ (fun p => product_id p =? Z.of_nat n))
    by (intros p; now apply sql_id_eq_key).
  rewrite (filter_same _ (fun p => negb (product_id p =? Z.of_nat n)))
    by (intros p; f_equal; now apply sql_id_eq_key).
  now destruct (existsb _ (products w)).
Qed.

(** X11. For an id given as a decimal numeral and with Product.destroy
    answered, the handler of DELETE /products/:id leaves exactly the rows
    with another id, in their order; it answers 200 when some row had the
    id and 404, with the table as it was, when none had; the same request
    once more is answered 404. *)
Theorem product_delete_removes
    (rejects : Rejects) (env : Env) (req : Request) (w : World) (n : nat) :
  rejects Product_destroy_op = None ->
  index_of_key (params_id req) = Some n ->
  products (snd (products_delete_handler rejects env req w))
  = filter (fun p => negb (product_id p =? Z.of_nat n)) (products w) /\
  (existsb (fun p => product_id p =? Z.of_nat n) (products w) = true ->
   fst (products_delete_handler rejects env req w)
   = Ok (mkResponse 200 (BodyMessage "Product deleted successfully"))) /\
  (existsb (fun p => product_id p =? Z.of_nat n) (products w) = false ->
   fst (products_delete_handler rejects env req w)
   = Ok (mkResponse 404 (BodyMessage "Product not found")) /\
   products (snd (products_delete_handler rejects env req w)) = products w) /\
  fst (products_delete_handler rejects env req
         (snd (products_delete_handler rejects env req w)))
  = Ok (mkResponse 404 (BodyMessage "Product not found")).
Proof.
  intros Hup Hkey.
  rewrite !(products_delete_run rejects env req _ n Hup Hkey).
  cbn [fst snd set_products products].
  split; [reflexivity|]. split; [|split].
  - now intros ->.
  - intros Hnone. rewrite Hnone. split; [reflexivity|].
    now apply (no_hit_filter_id (fun p => product_id p =? Z.of_nat n)).
  - now rewrite (no_hit_after_filter (fun p => product_id p =? Z.of_nat n)).
Qed.

Lemma product_delete_removes_witness :
  products (snd (products_delete_handler accepts_all env0
                   (with_token admin_token "1" []) shop)) = [] /\
  fst (products_delete_handler accepts_all env0
         (with_token admin_token "7" []) shop)
  = Ok (mkResponse 404 (BodyMessage "Product not found")).
Proof.
  split.
  - apply (proj1 (product_delete_removes accepts_all env0
                    (with_token admin_token "1" []) shop 1%nat
                    eq_refl eq_refl)).
  - apply (proj1 (proj2 (proj2 (product_delete_removes accepts_all env0
                    (with_token admin_token "7" []) shop 7%nat
                    eq_refl eq_refl)))).
    reflexivity.
Defined.

(** X12. For an id given as a decimal numeral and with the lookup answered,
    the handler of PATCH /categories/:id answers 404 for an id no row has,
    without writing anything. For an id some row has it answers 200 once
    Category.update is through: the ids in the table and the rows with
    another id are as before, and every row with the id bears the name of
    the body, if that is a string. If Category.update is rejected the answer
    is 500 with the error's message and nothing is written. *)
Theorem category_patch_effect
    (rejects : Rejects) (env : Env) (req : Request) (w : World) (n : nat) :
  rejects Category_findOne_op = None ->
  index_of_key (params_id req) = Some n ->
  (existsb (fun c => category_id c =? Z.of_nat n) (categories w) = false ->
   categories_patch_handler rejects env req w
   = (Ok (mkResponse 404 (BodyMessage "Category not found")), w)) /\
  (existsb (fun c => category_id c =? Z.of_nat n) (categories w) = true ->
   (forall e,
      rejects Category_update_op = Some e ->
      categories_patch_handler rejects env req w
      = (Ok (mkResponse 500 (BodyError (err_message e))), w)) /\
   (rejects Category_update_op = None ->
    fst (categories_patch_handler rejects env req w)
    = Ok (mkResponse 200 (BodyMessage "Category updated successfully")) /\
    map category_id
        (categories (snd (categories_patch_handler rejects env req w)))
    = map category_id (categories w) /\
    (forall c',
       In c' (categories w) ->
       category_id c' <> Z.of_nat n ->
       In c' (categories (snd (categories_patch_handler rejects env req w)))) /\
    (forall s c',
       get_prop (req_body req) "name" = JStr s ->
       In c' (categories (snd (categories_patch_handler rejects env req w))) ->
       category_id c' = Z.of_nat n ->
       category_name c' = JStr s))).
Proof.
  intros Hup Hkey.
  assert (Hfind : find (fun c => sql_id_eq (category_id c) (params_id req))
                       (categories w)
                  = find (fun c => category_id c =? Z.of_nat n) (categories w))
    by (apply find_same; intros c; now apply sql_id_eq_key).
  split.
  - intros Hnone. apply find_existsb in Hnone.
    unfold categories_patch_handler, Category_findOne, store_call.
    unfold_js. now rewrite Hup, Hfind, Hnone.
  - intros Hsome.
    destruct (find (fun c => category_id c =? Z.of_nat n) (categories w))
      as [c|] eqn:Hc;
      [|apply find_existsb in Hc; congruence].
    split.
    + intros e Hdown.
      unfold categories_patch_handler, Category_findOne, Category_update,
        store_call.
      unfold_js. now rewrite Hup, Hfind, Hdown.
    + intros Hup2.
      unfold categories_patch_handler, Category_findOne, Category_update,
        store_call.
      unfold_js. rewrite Hup, Hfind, Hup2. cbn [fst snd categories].
      rewrite (map_same_update _ (fun c => category_id c =? Z.of_nat n))
        by (intros x; now apply sql_id_eq_key).
      split; [reflexivity|]. split; [|split].
      * now apply update_keeps.
      * intros c' Hin Hc'.
        apply (update_others (fun c => category_id c =? Z.of_nat n)); auto.
        now apply Z.eqb_neq.
      * intros s c' Hname Hin Hid. apply in_map_iff in Hin as (c0 & <- & _).
        destruct (category_id c0 =? Z.of_nat n) eqn:E.
        -- cbn [category_name]. now rewrite Hname.
        -- apply Z.eqb_neq in E. contradiction.
Qed.

Lemma category_patch_effect_witness :
  categories_patch_handler accepts_all env0
    (with_token admin_token "9" [("name", JStr "Rugby")]) shop
  = (Ok (mkResponse 404 (BodyMessage "Category not found")), shop) /\
  fst (categories_patch_handler accepts_all env0
         (with_token admin_token "2" [("name", JStr "Rugby")]) shop)
  = Ok (mkResponse 200 (BodyMessage "Category updated successfully")).
Proof.
  split.
  - apply (proj1 (category_patch_effect accepts_all env0
                    (with_token admin_token "9" [("name", JStr "Rugby")]) shop
                    9%nat eq_refl eq_refl)).
    reflexivity.
  - apply (proj2 (category_patch_effect accepts_all env0
                    (with_token admin_token "2" [("name", JStr "Rugby")]) shop
                    2%nat eq_refl eq_refl)); reflexivity.
Defined.

(** X13. For an id given as a decimal numeral and with Product.update
    answered, the handler of PATCH /products/:id neither adds nor removes a
    product and leaves every row with another id as it was; when no row has
    the id the table is unchanged; every row with the id bears the name and
    the description of the body where these are strings, and its categoryId
    where that is an integer. *)
Theorem product_patch_effect
    (env : Env) (req : Request) (w : World) (n : nat) :
  fault env Product_update_op = None ->
  index_of_key (params_id req) = Some n ->
  map product_id (products (snd (products_patch_handler env req w)))
  = map product_id (products w) /\
  (forall p,
     In p (products w) ->
     product_id p <> Z.of_nat n ->
     In p (products (snd (products_patch_handler env req w)))) /\
  (existsb (fun p => product_id p =? Z.of_nat n) (products w) = false ->
   products (snd (products_patch_handler env req w)) = products w) /\
  (forall p',
     In p' (products (snd (products_patch_handler env req w))) ->
     product_id p' = Z.of_nat n ->
     (forall s, get_prop (req_body req) "name" = JStr s ->
                product_name p' = JStr s) /\
     (forall s, get_prop (req_body req) "description" = JStr s ->
                product_description p' = JStr s) /\
     (forall m, get_prop (req_body req) "categoryId" = JNum m ->
                product_categoryId p' = JNum m)).
Proof.
  intros Hup Hkey. unfold products_patch_handler, Product_update. unfold_js.
  rewrite Hup. cbn [get_prop fst snd products set_products].
  change (truthy (if ("updated" =? "length")%string then _ else _)) with false.
  cbn [snd products].
  rewrite (map_same_update _ (fun p => product_id p =? Z.of_nat n))
    by (intros x; now apply sql_id_eq_key).
  split; [|split; [|split]].
  - now apply update_keeps.
  - intros p Hin Hp.
    apply (update_others (fun p => product_id p =? Z.of_nat n)); auto.
    now apply Z.eqb_neq.
  - intros Hnone. now apply update_no_hit.
  - intros p' Hin Hid. apply in_map_iff in Hin as (p0 & <- & _).
    destruct (product_id p0 =? Z.of_nat n) eqn:E;
      [|apply Z.eqb_neq in E; contradiction].
    cbn [product_name product_description product_categoryId].
    repeat split; intros v ->; reflexivity.
Qed.

Lemma product_patch_effect_witness :
  map product_id
      (products (snd (products_patch_handler env0
                        (with_token admin_token "1" [("name", JStr "Bat 2")])
                        shop)))
  = map product_id (products shop) /\
  products (snd (products_patch_handler env0
                   (with_token admin_token "5" [("name", JStr "Bat 2")]) shop))
  = products shop.
Proof.
  split.
  - apply (proj1 (product_patch_effect env0
             (with_token admin_token "1" [("name", JStr "Bat 2")]) shop 1%nat
             eq_refl eq_refl)).
  - apply (proj1 (proj2 (proj2 (product_patch_effect env0
             (with_token admin_token "5" [("name", JStr "Bat 2")]) shop 5%nat
             eq_refl eq_refl)))).
    reflexivity.
Defined.

(** X15. GET /products and GET /products/:id ask for a verified token but
    for no role. With the query answered, the first sends 200 with every
    product and the category its categoryId names, also when there is no
    product at all; the second, asked for an id given as a decimal numeral,
    sends 200 with the first product that has the id, or 404 "Product not
    found" when none has. *)
Theorem products_readable_by_any_role
    (rejects : Rejects) (env : Env) (req : Request) (w : World)
    (identity : Identity) :
  Token_Verifier env (authorization req) = inl identity ->
  (rejects Product_findAll_op = None ->
   fst (productRoute_get rejects env req w)
   = Ok (Rich 200 (BodyProducts (map (with_Category w) (products w))))) /\
  (forall n,
     fault env Product_findOne_op = None ->
     index_of_key (params_id req) = Some n ->
     fst (productRoute_get_one env req w)
     = Ok (match find (fun p => product_id p =? Z.of_nat n) (products w) with
           | Some p => mkResponse 200 (BodyProduct (Some (with_Category w p)))
           | None => mkResponse 404 (BodyMessage "Product not found")
           end)).
Proof.
  intros Hid. split.
  - intros Hup. unfold productRoute_get.
    rewrite (token_passes_rich _ _ _ _ _ Hid).
    unfold products_get_handler, Product_findAll, store_call. unfold_js.
    now rewrite Hup.
  - intros n Hup Hkey. unfold productRoute_get_one.
    rewrite (token_passes _ _ _ _ _ Hid).
    unfold products_get_one_handler, Product_findOne. unfold_js.
    rewrite Hup. cbn [params_id products].
    rewrite (find_same _ (fun p => product_id p =? Z.of_nat n))
      by (intros p; now apply sql_id_eq_key).
    now destruct (find _ (products w)).
Qed.

Lemma products_readable_by_any_role_witness :
  fst (productRoute_get accepts_all env0 (with_token user_token "" [])
         world_with_alice)
  = Ok (Rich 200 (BodyProducts [])) /\
  fst (productRoute_get_one env0 (with_token user_token "1" []) shop)
  = Ok (mkResponse 200
          (BodyProduct
             (Some (mkProduct 1 (JStr "Bat") (JStr "Willow") (JNum 40) (JNum 1),
                    Some (mkCategory 1 (JStr "Cricket")))))) /\
  fst (productRoute_get_one env0 (with_token user_token "4" []) shop)
  = Ok (mkResponse 404 (BodyMessage "Product not found")).
Proof.
  split; [|split].
  - apply (proj1 (products_readable_by_any_role accepts_all env0
                    (with_token user_token "" []) world_with_alice
                    (mkIdentity 1 (JStr "user")) eq_refl)).
    reflexivity.
  - apply (proj2 (products_readable_by_any_role accepts_all env0
                    (with_token user_token "1" []) shop
                    (mkIdentity 1 (JStr "user")) eq_refl) 1%nat);
      reflexivity.
  - apply (proj2 (products_readable_by_any_role accepts_all env0
                    (with_token user_token "4" []) shop
                    (mkIdentity 1 (JStr "user")) eq_refl) 4%nat);
      reflexivity.
Defined.

(** X18. When Product.create is not rejected, POST /products answers 201
    with a product that bears name, description, price and categoryId of
    the body; the products table gains one row, with that product's id, at
    its end, and the categories table is not touched. From then on GET
    /products/:id, asked for that id in decimal, answers 200 with a product
    of that id, which bears the name of the body if that is a string. *)
Theorem product_post_then_get
    (rejects : Rejects) (env : Env) (req : Request) (w : World) :
  rejects Product_create_op = None ->
  exists p w',
    products_post_handler rejects env req w
    = (Ok (Rich 201 (BodyCreated p)), w') /\
    product_name p = get_prop (req_body req) "name" /\
    product_description p = get_prop (req_body req) "description" /\
    product_price p = get_prop (req_body req) "price" /\
    product_categoryId p = get_prop (req_body req) "categoryId" /\
    (exists row,
       products w' = (products w ++ [row])%list /\
       product_id row = product_id p) /\
    categories w' = categories w /\
    (forall env2 req2 n,
       fault env2 Product_findOne_op = None ->
       index_of_key (params_id req2) = Some n ->
       Z.of_nat n = product_id p ->
       exists found,
         fst (products_get_one_handler env2 req2 w')
         = Ok (mkResponse 200 (BodyProduct (Some found))) /\
         product_id (fst found) = product_id p /\
         (forall s, get_prop (req_body req) "name" = JStr s ->
                    product_name (fst found) = JStr s)).
Proof.
  intros Hup.
  unfold products_post_handler, Product_create, store_call. unfold_js.
  rewrite Hup. eexists. eexists. split; [reflexivity|].
  cbn [product_name product_description product_price product_categoryId
       product_id products categories set_products].
  repeat (split; [reflexivity|]).
  split; [eexists; split; reflexivity|]. split; [reflexivity|].
  intros env2 req2 n Hup2 Hkey Hn.
  unfold products_get_one_handler, Product_findOne. unfold_js.
  rewrite Hup2. cbn [products categories].
  rewrite find_app_none.
  - cbn [find product_id]. rewrite (sql_id_eq_key _ _ _ Hkey), Hn.
    rewrite Z.eqb_refl. eexists. split; [reflexivity|].
    cbn [fst product_id product_name]. split; [reflexivity|].
    now intros s ->.
  - apply find_existsb. now apply fresh_key_unused with (n := n).
Qed.

Lemma product_post_then_get_witness :
  exists p w',
    products_post_handler accepts_all env0
      (with_token admin_token ""
         [("name", JStr "Ball"); ("description", JStr "Leather");
          ("price", JNum 5); ("categoryId", JNum 2)])
      shop
    = (Ok (Rich 201 (BodyCreated p)), w') /\
    product_name p = JStr "Ball" /\
    exists found,
      fst (products_get_one_handler env0 (with_token user_token "2" []) w')
      = Ok (mkResponse 200 (BodyProduct (Some found))) /\
      product_id (fst found) = product_id p.
Proof.
  destruct (product_post_then_get accepts_all env0
              (with_token admin_token ""
                 [("name", JStr "Ball"); ("description", JStr "Leather");
                  ("price", JNum 5); ("categoryId", JNum 2)])
              shop eq_refl)
    as (p & w' & Hpost & Hname & _ & _ & _ & _ & _ & Hget).
  exists p, w'. split; [exact Hpost|]. split; [exact Hname|].
  destruct (Hget env0 (with_token user_token "2" []) 2%nat eq_refl eq_refl)
    as (found & Hfound & Hid & _).
  - injection Hpost as <- _. reflexivity.
  - exists found. now split.
Defined.
